(** * NeverEverLand v003: the development server [serve.py]

    A shallow embedding of [v003/serve.py] together with the parts of the
    Python standard library it is built from ([http.server],
    [socketserver], the interpreter's top level; as of CPython 3.11),
    followed by the properties of the server that the specification states.

    The script subclasses [http.server.SimpleHTTPRequestHandler], so most of
    the behaviour of a request lives in the base classes.  The base classes
    are embedded with open recursion: every call of the form [self.m(...)]
    on a method that the subclass overrides goes through a section variable,
    which [CustomHandler] instantiates at the end.

    Handlers and the process are computations in a state-and-exception
    monad.  What the embedding does not compute is taken from a [world]:
    the file system, the clients and their requests (as [parse_request]
    classifies them), the moment of Ctrl+C, and the text-only library
    functions whose results the server merely passes along. *)

From Stdlib Require Import String Ascii List Bool Arith ZArith Lia DecimalString.
Import ListNotations.
Local Open Scope list_scope.
Local Open Scope string_scope.

(** ** Python strings *)

Module Py.

Definition LF : string := String "010" EmptyString.
Definition CRLF : string := String "013" LF.
Definition dquote : string := String (ascii_of_nat 34) EmptyString.

(** [s.endswith(suffix)] *)
Definition endswith (s suffix : string) : bool :=
  (String.length suffix <=? String.length s)%nat &&
  (substring (String.length s - String.length suffix)
             (String.length suffix) s =? suffix).

(** [s.startswith(p)] *)
Definition startswith (s p : string) : bool := prefix p s.

Definition lower_ascii (c : ascii) : ascii :=
  let n := nat_of_ascii c in
  if ((65 <=? n) && (n <=? 90))%nat then ascii_of_nat (n + 32) else c.

(** [s.lower()] on ASCII text *)
Fixpoint lower (s : string) : string :=
  match s with
  | EmptyString => EmptyString
  | String c r => String (lower_ascii c) (lower r)
  end.

(** [s * n] *)
Fixpoint repeat (s : string) (n : nat) : string :=
  match n with
  | O => EmptyString
  | S k => s ++ repeat s k
  end.

(** [str(n)] for an [int] *)
Definition str (n : Z) : string := NilZero.string_of_int (Z.to_int n).

(** [repr(s)] for a string without quotes or escapes *)
Definition repr (s : string) : string := "'" ++ s ++ "'".

(** [s.split(sep, 1)[0]]: the text before the first [sep] *)
Fixpoint before (sep : ascii) (s : string) : string :=
  match s with
  | EmptyString => EmptyString
  | String c r => if Ascii.eqb c sep then EmptyString else String c (before sep r)
  end.

(** [s.split(sep)] for a one-character separator *)
Fixpoint split (sep : ascii) (s : string) : list string :=
  match s with
  | EmptyString => [EmptyString]
  | String c r =>
      if Ascii.eqb c sep then EmptyString :: split sep r
      else match split sep r with
           | w :: ws => String c w :: ws
           | [] => [String c EmptyString]
           end
  end.

(** number of line feeds in a text *)
Fixpoint count_LF (s : string) : nat :=
  match s with
  | EmptyString => 0
  | String c r => (if Ascii.eqb c "010" then 1 else 0) + count_LF r
  end.

End Py.

(** ** Exceptions and the state-and-exception monad *)

Inductive exn : Type :=
| AttributeError (attr : string)
| OSError (errno : Z) (strerror : string)
| KeyboardInterrupt
| SystemExit (code : Z).

(** [Exception] subclasses, as opposed to the other [BaseException]s *)
Definition is_Exception (e : exn) : bool :=
  match e with
  | AttributeError _ | OSError _ _ => true
  | KeyboardInterrupt | SystemExit _ => false
  end.

(** The last line of the traceback the interpreter prints for [e]. *)
Definition format_exception_only (e : exn) : string :=
  match e with
  | AttributeError a => "AttributeError: 'CustomHandler' object has no attribute '" ++ a ++ "'"
  | OSError n msg => "OSError: [Errno " ++ Py.str n ++ "] " ++ msg
  | KeyboardInterrupt => "KeyboardInterrupt"
  | SystemExit c => "SystemExit: " ++ Py.str c
  end.

(** A computation either returns, raises, or waits for ever for input that
    does not come ([Blocked]); no handler runs in the last case. *)
Inductive result (A : Type) : Type :=
| Val (a : A)
| Exc (e : exn)
| Blocked.
Arguments Val {A} a.
Arguments Exc {A} e.
Arguments Blocked {A}.

Definition M (S A : Type) : Type := S -> result A * S.

Definition ret {S A} (a : A) : M S A := fun s => (Val a, s).

Definition bind {S A B} (m : M S A) (k : A -> M S B) : M S B :=
  fun s =>
    match m s with
    | (Val a, s') => k a s'
    | (Exc e, s') => (Exc e, s')
    | (Blocked, s') => (Blocked, s')
    end.

Definition raise {S A} (e : exn) : M S A := fun s => (Exc e, s).

Definition gets {S A} (f : S -> A) : M S A := fun s => (Val (f s), s).

Definition modify {S} (f : S -> S) : M S unit := fun s => (Val tt, f s).

(** [try: m  except <those e with catches e>: handler] *)
Definition try_except {S A} (m : M S A) (catches : exn -> bool) (handler : exn -> M S A)
  : M S A :=
  fun s =>
    match m s with
    | (Exc e, s') => if catches e then handler e s' else (Exc e, s')
    | r => r
    end.

(** [try: m  finally: cleanup], also the shape of a [with] block *)
Definition try_finally {S A} (m : M S A) (cleanup : M S unit) : M S A :=
  fun s =>
    match m s with
    | (Val a, s') => bind cleanup (fun _ => ret a) s'
    | (Exc e, s') => bind cleanup (fun _ => raise e) s'
    | (Blocked, s') => (Blocked, s')
    end.

Declare Scope monad_scope.
Delimit Scope monad_scope with monad.
Notation "x <- m ;; k" := (bind m (fun x => k))
  (at level 61, m at next level, right associativity) : monad_scope.
Notation "m ;; k" := (bind m (fun _ => k))
  (at level 61, right associativity) : monad_scope.
Local Open Scope monad_scope.

Definition when {S} (b : bool) (m : M S unit) : M S unit :=
  if b then m else ret tt.

(** ** Paths ([pathlib], [os.path]) *)

(** An absolute [PurePosixPath], by its parts below the root. *)
Record Path : Type := { parts : list string }.

(** [Path.parent]; the root is its own parent. *)
Definition parent (p : Path) : Path := {| parts := removelast (parts p) |}.

(** [os.fspath(p)] *)
Definition fspath (p : Path) : string :=
  match parts p with
  | [] => "/"
  | ps => String.concat "" (map (fun w => "/" ++ w) ps)
  end.

(** [os.path.join(a, b)] *)
Definition os_path_join (a b : string) : string :=
  if Py.startswith b "/" then b
  else if (a =? "") || Py.endswith a "/" then a ++ b
  else a ++ "/" ++ b.

(** [os.path.dirname(w)] is empty exactly when [w] has no slash; only its
    truth value is used. *)
Fixpoint has_slash (w : string) : bool :=
  match w with
  | EmptyString => false
  | String c r => Ascii.eqb c "/" || has_slash r
  end.

(** ** The world outside the program

    What the operating system, the file system and the clients do.  The
    library functions whose results depend only on text (URL unquoting,
    path normalisation, the MIME table, the HTML of error pages and of
    directory listings) are taken from the world as functions: the server
    only passes their results along. *)

Inductive node : Type :=
| Absent                                (* nothing has this name *)
| File (data : string) (mtime : string) (* contents, formatted st_mtime *)
| Unreadable                            (* a file that [open] refuses *)
| Dir (listable : bool).

Definition isdir (n : node) : bool :=
  match n with Dir _ => true | _ => false end.

Definition isfile (n : node) : bool :=
  match n with File _ _ | Unreadable => true | _ => false end.

(** The header section of a request, as far as the handler looks at it:
    whether [http.client.parse_headers] accepts it and, if so, whether the
    [If-Modified-Since] test of [send_head] finds the client's copy fresh. *)
Inductive header_section : Type :=
| HeadersTooLarge (message explain : string)
| Headers (fresh_in_cache : bool).

(** A request line of at most 65536 bytes, by what [parse_request] makes
    of it. *)
Inductive request_line : Type :=
| BlankLine (line : string)
    (* no words *)
| Rejected (line version : string) (code : Z) (message : string)
    (* [parse_request] answers with [send_error(code, message)] before it
       assigns [self.path]; [version] is [self.request_version] then *)
| RequestLine (line command path version : string) (hs : header_section).
    (* [self.command], [self.path], [self.request_version] as assigned *)

(** One request on a connection, as [handle_one_request] reads it. *)
Inductive request : Type :=
| LineTooLong                    (* more than 65536 bytes *)
| Line (l : request_line).

Record connection : Type := {
  peer : string;                 (* [address_string()] *)
  requests : list request;
}.

Record world : Type := {
  script_file : Path;            (* [__file__], absolute *)
  invocation_cwd : string;       (* the working directory at start *)
  fs : string -> node;
  port_in_use : Z -> bool;       (* bound by some other process *)
  sigint_after : option nat;     (* Ctrl+C after so many steps, if ever *)
  incoming : list connection;    (* the clients, in order of arrival *)
  unquote : string -> string;            (* [urllib.parse.unquote] *)
  normpath : string -> string;           (* [posixpath.normpath] *)
  guess_type : string -> string;         (* [guess_type(path)] *)
  urlsplit_path : string -> string;      (* [urlsplit(p).path] *)
  redirect_url : string -> string;       (* [p] with a slash after its path *)
  version_string : string;
  date_time_string : string;
  filesystemencoding : string;
  error_page : Z -> string -> string -> string;
      (* [error_message_format % {code, message, explain}], encoded *)
  listing_page : string -> string -> string;
      (* the listing of a directory, encoded *)
}.

(** ** [http.server]: the request handler *)

(** What goes to the client: each [wfile.write] is one chunk; the one that
    [flush_headers] issues keeps its lines apart. *)
Inductive chunk : Type :=
| HeaderBlock (lines : list string)
| Body (data : string).

Record handler : Type := {
  directory : string;
  client_address : string;
  rfile : list request;
  wfile : list chunk;
  printed : list string;           (* what the handler wrote to stdout *)
  requestline : string;
  command : option string;         (* [None] is Python's [None] *)
  path : option string;            (* [None]: no such attribute yet *)
  request_version : string;
  headers : header_section;
  close_connection : bool;
  _headers_buffer : option (list string);  (* [None]: no such attribute yet *)
}.

Definition set_rfile v h :=
  {| directory := directory h; client_address := client_address h; rfile := v;
     wfile := wfile h; printed := printed h; requestline := requestline h;
     command := command h; path := path h; request_version := request_version h;
     headers := headers h; close_connection := close_connection h;
     _headers_buffer := _headers_buffer h |}.
Definition set_wfile v h :=
  {| directory := directory h; client_address := client_address h; rfile := rfile h;
     wfile := v; printed := printed h; requestline := requestline h;
     command := command h; path := path h; request_version := request_version h;
     headers := headers h; close_connection := close_connection h;
     _headers_buffer := _headers_buffer h |}.
Definition set_printed v h :=
  {| directory := directory h; client_address := client_address h; rfile := rfile h;
     wfile := wfile h; printed := v; requestline := requestline h;
     command := command h; path := path h; request_version := request_version h;
     headers := headers h; close_connection := close_connection h;
     _headers_buffer := _headers_buffer h |}.
Definition set_requestline v h :=
  {| directory := directory h; client_address := client_address h; rfile := rfile h;
     wfile := wfile h; printed := printed h; requestline := v;
     command := command h; path := path h; request_version := request_version h;
     headers := headers h; close_connection := close_connection h;
     _headers_buffer := _headers_buffer h |}.
Definition set_command v h :=
  {| directory := directory h; client_address := client_address h; rfile := rfile h;
     wfile := wfile h; printed := printed h; requestline := requestline h;
     command := v; path := path h; request_version := request_version h;
     headers := headers h; close_connection := close_connection h;
     _headers_buffer := _headers_buffer h |}.
Definition set_path v h :=
  {| directory := directory h; client_address := client_address h; rfile := rfile h;
     wfile := wfile h; printed := printed h; requestline := requestline h;
     command := command h; path := v; request_version := request_version h;
     headers := headers h; close_connection := close_connection h;
     _headers_buffer := _headers_buffer h |}.
Definition set_request_version v h :=
  {| directory := directory h; client_address := client_address h; rfile := rfile h;
     wfile := wfile h; printed := printed h; requestline := requestline h;
     command := command h; path := path h; request_version := v;
     headers := headers h; close_connection := close_connection h;
     _headers_buffer := _headers_buffer h |}.
Definition set_headers v h :=
  {| directory := directory h; client_address := client_address h; rfile := rfile h;
     wfile := wfile h; printed := printed h; requestline := requestline h;
     command := command h; path := path h; request_version := request_version h;
     headers := v; close_connection := close_connection h;
     _headers_buffer := _headers_buffer h |}.
Definition set_close_connection v h :=
  {| directory := directory h; client_address := client_address h; rfile := rfile h;
     wfile := wfile h; printed := printed h; requestline := requestline h;
     command := command h; path := path h; request_version := request_version h;
     headers := headers h; close_connection := v;
     _headers_buffer := _headers_buffer h |}.
Definition set_headers_buffer v h :=
  {| directory := directory h; client_address := client_address h; rfile := rfile h;
     wfile := wfile h; printed := printed h; requestline := requestline h;
     command := command h; path := path h; request_version := request_version h;
     headers := headers h; close_connection := close_connection h;
     _headers_buffer := v |}.

Definition H : Type -> Type := M handler.

(** [self.wfile.write(c)] *)
Definition write (c : chunk) : H unit :=
  modify (fun h => set_wfile (wfile h ++ [c])%list h).

(** [print(s)] from inside a handler *)
Definition handler_print (s : string) : H unit :=
  modify (fun h => set_printed (printed h ++ [(s ++ Py.LF)%string])%list h).

(** [self.path]: an [AttributeError] until [parse_request] assigns it *)
Definition self_path : H string :=
  fun h => match path h with
           | Some p => (Val p, h)
           | None => (Exc (AttributeError "path"), h)
           end.

(** The entries of [BaseHTTPRequestHandler.responses] the server can use:
    short and long message. *)
Definition responses (code : Z) : option (string * string) :=
  match code with
  | 200 => Some ("OK", "Request fulfilled, document follows")
  | 301 => Some ("Moved Permanently", "Object moved permanently -- see URI list")
  | 304 => Some ("Not Modified", "Document has not changed since given time")
  | 400 => Some ("Bad Request", "Bad request syntax or unsupported method")
  | 404 => Some ("Not Found", "Nothing matches the given URI")
  | 414 => Some ("Request-URI Too Long", "URI is too long")
  | 431 => Some ("Request Header Fields Too Large",
                 "The server is unwilling to process the request because its header fields are too large")
  | 501 => Some ("Not Implemented", "Server does not support this operation")
  | 505 => Some ("HTTP Version Not Supported", "Cannot fulfill request")
  | _ => None
  end%Z.

Definition protocol_version : string := "HTTP/1.0".
Definition default_request_version : string := "HTTP/0.9".
Definition error_content_type : string := "text/html;charset=utf-8".

Definition is_space (c : ascii) : bool :=
  let n := nat_of_ascii c in
  ((9 <=? n) && (n <=? 13) || (28 <=? n) && (n <=? 32) || (n =? 133) || (n =? 160))%nat.

(** [s.rstrip()] *)
Fixpoint rstrip (s : string) : string :=
  match s with
  | EmptyString => EmptyString
  | String c r =>
      match rstrip r with
      | EmptyString => if is_space c then EmptyString else String c EmptyString
      | r' => String c r'
      end
  end.

Section Handler.

Variable W : world.

Section Classes.

(** The methods [CustomHandler] overrides, as the base classes call
    them through [self]. *)
Variable self_end_headers : H unit.
Variable self_log_message : string -> H unit.   (* the text [format % args] *)

(** *** [BaseHTTPRequestHandler] *)

Definition log_request (code : Z) : H unit :=
  l <- gets requestline ;;
  self_log_message (Py.dquote ++ l ++ Py.dquote ++ " " ++ Py.str code ++ " -").

Definition log_error (message : string) : H unit :=
  self_log_message message.

Definition buffer_append (line : string) : H unit :=
  modify (fun h =>
    set_headers_buffer
      (Some ((match _headers_buffer h with Some b => b | None => [] end) ++ [line])%list) h).

Definition send_response_only (code : Z) (message : option string) : H unit :=
  v <- gets request_version ;;
  when (negb (v =? "HTTP/0.9"))
    (let message :=
       match message with
       | Some m => m
       | None => match responses code with Some (short, _) => short | None => "" end
       end in
     buffer_append (protocol_version ++ " " ++ Py.str code ++ " " ++ message ++ Py.CRLF)).

Definition send_header (keyword value : string) : H unit :=
  v <- gets request_version ;;
  when (negb (v =? "HTTP/0.9"))
    (buffer_append (keyword ++ ": " ++ value ++ Py.CRLF)) ;;
  when (Py.lower keyword =? "connection")
    (if Py.lower value =? "close" then modify (set_close_connection true)
     else if Py.lower value =? "keep-alive" then modify (set_close_connection false)
     else ret tt).

Definition flush_headers : H unit :=
  b <- gets _headers_buffer ;;
  match b with
  | Some lines => write (HeaderBlock lines) ;; modify (set_headers_buffer (Some []))
  | None => ret tt
  end.

(** [BaseHTTPRequestHandler.end_headers], which the subclass reaches as
    [super().end_headers()] *)
Definition end_headers : H unit :=
  v <- gets request_version ;;
  when (negb (v =? "HTTP/0.9"))
    (b <- gets _headers_buffer ;;
     match b with
     | Some lines => modify (set_headers_buffer (Some (lines ++ [Py.CRLF])%list))
     | None => raise (AttributeError "_headers_buffer")
     end ;;
     flush_headers).

Definition send_response (code : Z) (message : option string) : H unit :=
  log_request code ;;
  send_response_only code message ;;
  send_header "Server" (version_string W) ;;
  send_header "Date" (date_time_string W).

Definition send_error (code : Z) (message explain : option string) : H unit :=
  let '(shortmsg, longmsg) :=
    match responses code with Some sl => sl | None => ("???", "???") end in
  let message := match message with Some m => m | None => shortmsg end in
  let explain := match explain with Some e => e | None => longmsg end in
  log_error ("code " ++ Py.str code ++ ", message " ++ message) ;;
  send_response code (Some message) ;;
  send_header "Connection" "close" ;;
  let has_body :=
    ((200 <=? code) && negb ((code =? 204) || (code =? 205) || (code =? 304)))%Z in
  let body := if has_body then error_page W code message explain else "" in
  when has_body
    (send_header "Content-Type" error_content_type ;;
     send_header "Content-Length" (Py.str (Z.of_nat (String.length body)))) ;;
  self_end_headers ;;
  c <- gets command ;;
  when (negb (match c with Some c => c =? "HEAD" | None => false end)
        && negb (body =? ""))
    (write (Body body)).

(** *** [SimpleHTTPRequestHandler] *)

Definition translate_path (p : string) : H string :=
  let p := Py.before "?" p in
  let p := Py.before "#" p in
  let trailing_slash := Py.endswith (rstrip p) "/" in
  let p := unquote W p in
  let p := normpath W p in
  let words := filter (fun w => negb (w =? "")) (Py.split "/" p) in
  d <- gets directory ;;
  let p :=
    fold_left
      (fun acc word =>
         if has_slash word || (word =? ".") || (word =? "..") then acc
         else os_path_join acc word)
      words d in
  ret (if trailing_slash then p ++ "/" else p).

(** [send_head] from [ctype = self.guess_type(path)] on: the answer for
    something that is not a directory.  The file object it returns is
    modelled by the file's contents. *)
Definition send_file (path : string) : H (option string) :=
  let ctype := guess_type W path in
  if Py.endswith path "/" then
    send_error 404 (Some "File not found") None ;; ret None
  else
    match fs W path with
    | File data mtime =>
        hs <- gets headers ;;
        match hs with
        | Headers true =>
            send_response 304 None ;;
            self_end_headers ;;
            ret None
        | _ =>
            send_response 200 None ;;
            send_header "Content-type" ctype ;;
            send_header "Content-Length" (Py.str (Z.of_nat (String.length data))) ;;
            send_header "Last-Modified" mtime ;;
            self_end_headers ;;
            ret (Some data)
        end
    | _ =>
        (* [open] raises [OSError] *)
        send_error 404 (Some "File not found") None ;; ret None
    end.

Definition list_directory (path : string) : H (option string) :=
  match fs W path with
  | Dir true =>
      p <- self_path ;;
      let encoded := listing_page W path p in
      send_response 200 None ;;
      send_header "Content-type" ("text/html; charset=" ++ filesystemencoding W) ;;
      send_header "Content-Length" (Py.str (Z.of_nat (String.length encoded))) ;;
      self_end_headers ;;
      ret (Some encoded)
  | _ =>
      (* [os.listdir] raises [OSError] *)
      send_error 404 (Some "No permission to list directory") None ;; ret None
  end.

Definition send_head : H (option string) :=
  p <- self_path ;;
  path <- translate_path p ;;
  if isdir (fs W path) then
    if negb (Py.endswith (urlsplit_path W p) "/") then
      send_response 301 None ;;
      send_header "Location" (redirect_url W p) ;;
      send_header "Content-Length" "0" ;;
      self_end_headers ;;
      ret None
    else
      match
        find (fun index => isfile (fs W index))
             (map (os_path_join path) ["index.html"; "index.htm"])
      with
      | Some index => send_file index
      | None => list_directory path
      end
  else send_file path.

(** [shutil.copyfileobj]: nothing is written for an empty source *)
Definition copyfile (data : string) : H unit :=
  when (negb (data =? "")) (write (Body data)).

Definition do_GET : H unit :=
  f <- send_head ;;
  match f with
  | Some data => copyfile data
  | None => ret tt
  end.

Definition do_HEAD : H unit :=
  f <- send_head ;;
  ret tt.

(** [getattr(self, 'do_' + command)], [None] when there is no such method *)
Definition self_do (command : string) : option (H unit) :=
  if command =? "GET" then Some do_GET
  else if command =? "HEAD" then Some do_HEAD
  else None.

(** *** [BaseHTTPRequestHandler], continued *)

(** [parse_request] on a request line that is not too long.  With
    [protocol_version = "HTTP/1.0"] the branches that keep the
    connection alive or answer [Expect: 100-continue] are dead, and a
    [Connection: close] header only repeats [close_connection = True]. *)
Definition parse_request (r : request_line) : H bool :=
  modify (set_command None) ;;
  modify (set_request_version default_request_version) ;;
  modify (set_close_connection true) ;;
  match r with
  | BlankLine line => modify (set_requestline line) ;; ret false
  | Rejected line version code message =>
      modify (set_requestline line) ;;
      modify (set_request_version version) ;;
      send_error code (Some message) None ;;
      ret false
  | RequestLine line command path version hs =>
      modify (set_requestline line) ;;
      modify (set_request_version version) ;;
      modify (set_command (Some command)) ;;
      modify (set_path (Some path)) ;;
      match hs with
      | HeadersTooLarge message explain =>
          send_error 431 (Some message) (Some explain) ;;
          ret false
      | Headers _ =>
          modify (set_headers hs) ;;
          ret true
      end
  end.

(** [self.rfile.readline(65537)]: the next request of the connection *)
Definition readline : H (option request) :=
  fun h => match rfile h with
           | [] => (Val None, h)
           | r :: rest => (Val (Some r), set_rfile rest h)
           end.

Definition handle_one_request : H unit :=
  raw_requestline <- readline ;;
  match raw_requestline with
  | Some LineTooLong =>
      modify (set_requestline "") ;;
      modify (set_request_version "") ;;
      modify (set_command (Some "")) ;;
      send_error 414 None None
  | None => modify (set_close_connection true)
  | Some (Line r) =>
      ok <- parse_request r ;;
      if ok then
        c <- gets command ;;
        let c := match c with Some c => c | None => "" end in
        match self_do c with
        | None =>
            send_error 501 (Some ("Unsupported method (" ++ Py.repr c ++ ")")) None
        | Some method => method
        end
      else ret tt
  end.

(** [while not self.close_connection: self.handle_one_request()]; every
    turn takes a request off [rfile] or finds it empty and stops. *)
Fixpoint handle_more (fuel : nat) : H unit :=
  match fuel with
  | O => ret tt
  | S fuel' =>
      closed <- gets close_connection ;;
      if closed then ret tt
      else handle_one_request ;; handle_more fuel'
  end.

Definition handle : H unit :=
  modify (set_close_connection true) ;;
  handle_one_request ;;
  pending <- gets rfile ;;
  handle_more (S (length pending)).

End Classes.

End Handler.

(** ** [socketserver] and the process *)

Inductive socket_state : Type :=
| NoSocket
| Unbound
| Bound (host : string) (port : Z)
| Listening (host : string) (port : Z)
| Closed.

Record process : Type := {
  cwd : string;
  socket : socket_state;                 (* [httpd.socket] *)
  bind_calls : list (string * Z);        (* every address passed to [bind] *)
  stdout : list string;                  (* one entry per [write] *)
  stderr : list string;
  steps : nat;                           (* steps taken so far *)
  sent : list (list chunk);              (* per connection handled *)
}.

Definition set_cwd v p :=
  {| cwd := v; socket := socket p; bind_calls := bind_calls p; stdout := stdout p;
     stderr := stderr p; steps := steps p; sent := sent p |}.
Definition set_socket v p :=
  {| cwd := cwd p; socket := v; bind_calls := bind_calls p; stdout := stdout p;
     stderr := stderr p; steps := steps p; sent := sent p |}.
Definition set_bind_calls v p :=
  {| cwd := cwd p; socket := socket p; bind_calls := v; stdout := stdout p;
     stderr := stderr p; steps := steps p; sent := sent p |}.
Definition set_stdout v p :=
  {| cwd := cwd p; socket := socket p; bind_calls := bind_calls p; stdout := v;
     stderr := stderr p; steps := steps p; sent := sent p |}.
Definition set_stderr v p :=
  {| cwd := cwd p; socket := socket p; bind_calls := bind_calls p; stdout := stdout p;
     stderr := v; steps := steps p; sent := sent p |}.
Definition set_steps v p :=
  {| cwd := cwd p; socket := socket p; bind_calls := bind_calls p; stdout := stdout p;
     stderr := stderr p; steps := v; sent := sent p |}.
Definition set_sent v p :=
  {| cwd := cwd p; socket := socket p; bind_calls := bind_calls p; stdout := stdout p;
     stderr := stderr p; steps := steps p; sent := v |}.

Definition P : Type -> Type := M process.

(** [print(s)] *)
Definition print (s : string) : P unit :=
  modify (fun p => set_stdout (stdout p ++ [(s ++ Py.LF)%string])%list p).

(** [print(s, file=sys.stderr)] *)
Definition eprint (s : string) : P unit :=
  modify (fun p => set_stderr (stderr p ++ [(s ++ Py.LF)%string])%list p).

Definition os_chdir (d : Path) : P unit := modify (set_cwd (fspath d)).

Definition os_getcwd : P string := gets cwd.

Definition sys_exit (code : Z) : P unit := raise (SystemExit code).

Definition PORT : Z := 8000.

Inductive termination : Type :=
| Running                      (* still serving *)
| Exited (status : Z).

Definition is_KeyboardInterrupt (e : exn) : bool :=
  match e with KeyboardInterrupt => true | _ => false end.

Section Server.

Variable W : world.

(** *** [CustomHandler] *)

Definition CustomHandler_end_headers : H unit :=
  (* Add CORS headers *)
  send_header "Access-Control-Allow-Origin" "*" ;;
  send_header "Access-Control-Allow-Methods" "GET, POST, OPTIONS" ;;
  send_header "Access-Control-Allow-Headers" "Content-Type" ;;
  (* Set correct MIME types for JavaScript modules *)
  p <- self_path ;;
  when (Py.endswith p ".js")
    (send_header "Content-Type" "text/javascript") ;;
  end_headers.

Definition CustomHandler_log_message (message : string) : H unit :=
  a <- gets client_address ;;
  handler_print ("[" ++ a ++ "] " ++ message).

(** [CustomHandler(request, client_address, server)]: the constructor
    chain sets [self.directory] and, in [BaseRequestHandler.__init__],
    runs [handle()]; the handler in its last state is returned with the
    outcome. *)
Definition CustomHandler_init (c : connection) : result unit * handler :=
  handle W CustomHandler_end_headers CustomHandler_log_message
    {| directory := fspath (parent (script_file W));
       client_address := peer c;
       rfile := requests c;
       wfile := [];
       printed := [];
       requestline := "";
       command := None;
       path := None;
       request_version := "";
       headers := Headers false;
       close_connection := true;
       _headers_buffer := None |}.

(** *** Signals

    Ctrl+C reaches the main thread between two steps; a step is a
    statement of [main] or one connection handled by the serve loop.  The
    step before which [sigint_after W] steps have been taken raises
    [KeyboardInterrupt] instead of running. *)
Definition tick : P unit :=
  fun p =>
    let p' := set_steps (S (steps p)) p in
    match sigint_after W with
    | Some k => if (k =? steps p)%nat then (Exc KeyboardInterrupt, p') else (Val tt, p')
    | None => (Val tt, p')
    end.

Definition step {A} (m : P A) : P A := tick ;; m.

(** [select] with nobody left to connect: the call returns only when
    the signal comes. *)
Definition wait_for_signal : P unit :=
  fun p =>
    match sigint_after W with
    | Some k => if (steps p <=? k)%nat then (Exc KeyboardInterrupt, p) else (Blocked, p)
    | None => (Blocked, p)
    end.

(** *** [TCPServer] *)

Definition server_bind (address : string * Z) : P unit :=
  modify (fun p => set_bind_calls (bind_calls p ++ [address])%list p) ;;
  if port_in_use W (snd address)
  then raise (OSError 98 "Address already in use")
  else modify (set_socket (Bound (fst address) (snd address))).

Definition server_activate (address : string * Z) : P unit :=
  modify (set_socket (Listening (fst address) (snd address))).

Definition server_close : P unit := modify (set_socket Closed).

Definition TCPServer_init (address : string * Z) : P unit :=
  modify (set_socket Unbound) ;;
  try_except
    (server_bind address ;; server_activate address)
    (fun _ => true)
    (fun e => server_close ;; raise e).

(** Of the traceback that [traceback.print_exc()] writes, the last line is
    kept. *)
Definition handle_error (e : exn) (c : connection) : P unit :=
  eprint (Py.repeat "-" 40) ;;
  eprint ("Exception occurred during processing of request from " ++ peer c) ;;
  eprint (format_exception_only e) ;;
  eprint (Py.repeat "-" 40).

(** [finish_request]: build the handler, which serves the connection;
    what it wrote is now with the client and on stdout, also when it
    raised. *)
Definition finish_request (c : connection) : P unit :=
  fun p =>
    let '(r, h) := CustomHandler_init c in
    let p' := set_sent (sent p ++ [wfile h])%list
                (set_stdout (stdout p ++ printed h)%list p) in
    (r, p').

(** [shutdown_request] closes the connection's socket, which the model
    does not keep. *)
Definition shutdown_request (c : connection) : P unit := ret tt.

Definition process_request (c : connection) : P unit :=
  finish_request c ;;
  shutdown_request c.

Definition _handle_request_noblock (c : connection) : P unit :=
  try_except
    (try_except (process_request c) is_Exception
       (fun e => handle_error e c ;; shutdown_request c))
    (fun _ => true)
    (fun e => shutdown_request c ;; raise e).

Fixpoint serve_loop (clients : list connection) : P unit :=
  match clients with
  | [] => wait_for_signal
  | c :: rest =>
      tick ;;
      _handle_request_noblock c ;;
      serve_loop rest
  end.

Definition serve_forever : P unit := serve_loop (incoming W).

(** *** [main] *)

Definition main : P unit :=
  step (os_chdir (parent (script_file W))) ;;
  step (TCPServer_init ("", PORT)) ;;
  try_finally
    (step (print "🚀 NeverEverLand v003 Server") ;;
     step (print ("📡 Serving at http://localhost:" ++ Py.str PORT)) ;;
     step (d <- os_getcwd ;; print ("📁 Directory: " ++ d)) ;;
     step (print ("🎮 Open http://localhost:" ++ Py.str PORT ++ " in your browser")) ;;
     step (print "⏹️  Press Ctrl+C to stop") ;;
     step (print (Py.repeat "-" 50)) ;;
     try_except
       (step serve_forever)
       is_KeyboardInterrupt
       (fun _ =>
          print (Py.LF ++ "🛑 Server stopped") ;;
          sys_exit 0))
    server_close.

(** *** The interpreter's top level: [if __name__ == "__main__": main()] *)

Definition initial : process :=
  {| cwd := invocation_cwd W; socket := NoSocket; bind_calls := [];
     stdout := []; stderr := []; steps := 0; sent := [] |}.

Definition traceback (e : exn) : P unit :=
  eprint "Traceback (most recent call last):" ;;
  eprint (format_exception_only e).

(** [SystemExit] carries the status; another exception is reported on
    stderr with status 1; after an unhandled [KeyboardInterrupt] the
    interpreter ends itself with SIGINT, which shells report as 130. *)
Definition run : termination * process :=
  match main initial with
  | (Val _, p) => (Exited 0, p)
  | (Exc (SystemExit code), p) => (Exited code, p)
  | (Exc KeyboardInterrupt, p) => (Exited 130, snd (traceback KeyboardInterrupt p))
  | (Exc e, p) => (Exited 1, snd (traceback e p))
  | (Blocked, p) => (Running, p)
  end.

End Server.

(** ** A concrete world

    The repository checked out under [/home/dev/NeverEverLand], with an
    [index.html] and an [app.js] next to the script; the server is started
    from [/tmp]. *)

Definition demo_guess_type (path : string) : string :=
  if Py.endswith path ".js" then "application/javascript"
  else if Py.endswith path ".html" then "text/html"
  else "application/octet-stream".

Definition demo_fs (path : string) : node :=
  if path =? "/home/dev/NeverEverLand/v003" then Dir true
  else if path =? "/home/dev/NeverEverLand/v003/" then Dir true
  else if path =? "/home/dev/NeverEverLand/v003/index.html"
       then File "<!DOCTYPE html>" "Mon, 02 Nov 2026 10:00:00 GMT"
  else if path =? "/home/dev/NeverEverLand/v003/app.js"
       then File "import './main.js';" "Mon, 02 Nov 2026 10:00:00 GMT"
  else Absent.

Definition demo (busy : bool) (sigint : option nat) (clients : list connection) : world :=
  {| script_file := {| parts := ["home"; "dev"; "NeverEverLand"; "v003"; "serve.py"] |};
     invocation_cwd := "/tmp";
     fs := demo_fs;
     port_in_use := fun port => busy && (port =? 8000)%Z;
     sigint_after := sigint;
     incoming := clients;
     unquote := fun p => p;
     normpath := fun p => p;
     guess_type := demo_guess_type;
     urlsplit_path := fun p => Py.before "#" (Py.before "?" p);
     redirect_url := fun p => p ++ "/";
     version_string := "SimpleHTTP/0.6 Python/3.11.2";
     date_time_string := "Tue, 03 Nov 2026 09:00:00 GMT";
     filesystemencoding := "utf-8";
     error_page := fun code message explain =>
       "<p>Error code: " ++ Py.str code ++ "</p><p>Message: " ++ message ++ ".</p>";
     listing_page := fun path p => "<h1>Directory listing for " ++ p ++ "</h1>" |}.

Definition GET (path : string) : request :=
  Line (RequestLine ("GET " ++ path ++ " HTTP/1.1") "GET" path "HTTP/1.1" (Headers false)).

Definition POST (path : string) : request :=
  Line (RequestLine ("POST " ++ path ++ " HTTP/1.1") "POST" path "HTTP/1.1" (Headers false)).

Definition browser (rs : list request) : connection :=
  {| peer := "127.0.0.1"; requests := rs |}.

(** * Properties *)

(** ** Header lines *)

Definition header_line (keyword value : string) : string :=
  keyword ++ ": " ++ value ++ Py.CRLF.

Definition cors_headers : list string :=
  [ header_line "Access-Control-Allow-Origin" "*";
    header_line "Access-Control-Allow-Methods" "GET, POST, OPTIONS";
    header_line "Access-Control-Allow-Headers" "Content-Type" ].

Definition javascript_header : string := header_line "Content-Type" "text/javascript".

(** A chunk is in order when it is a body, or a header block with the three
    CORS lines in it. *)
Definition cors_chunk (c : chunk) : Prop :=
  match c with
  | HeaderBlock lines => incl cors_headers lines
  | Body _ => True
  end.

(** The values of the header [name] in a block, in order; field names are
    compared without regard to case, as HTTP does. *)
Fixpoint after_colon (name line : string) : option string :=
  match name, line with
  | EmptyString, String ":" (String " " value) => Some value
  | String a name', String b line' =>
      if Ascii.eqb (Py.lower_ascii a) (Py.lower_ascii b) then after_colon name' line'
      else None
  | _, _ => None
  end.

Fixpoint strip_CRLF (s : string) : string :=
  match s with
  | EmptyString => EmptyString
  | String c r => if s =? Py.CRLF then EmptyString else String c (strip_CRLF r)
  end.

Definition header_values (name : string) (lines : list string) : list string :=
  flat_map (fun line => match after_colon name line with
                        | Some v => [strip_CRLF v]
                        | None => []
                        end) lines.

(** The status of a response: the code on the status line of its first
    chunk, when that chunk is a header block. *)
Definition answers_with (code : Z) (response : list chunk) : bool :=
  match response with
  | HeaderBlock (status_line :: _) :: _ =>
      Py.startswith status_line (protocol_version ++ " " ++ Py.str code ++ " ")
  | _ => false
  end.

(** ** The states and texts the properties speak of *)

(** The directory that holds the script. *)
Definition root (W : world) : string := fspath (parent (script_file W)).

(** No Ctrl+C before [k] steps have been taken. *)
Definition quiet_until (W : world) (k : nat) : Prop :=
  forall n, sigint_after W = Some n -> k <= n.

(** What the six [print] calls at the head of [main] write. *)
Definition banner (W : world) : list string :=
  [ "🚀 NeverEverLand v003 Server" ++ Py.LF;
    ("📡 Serving at http://localhost:" ++ Py.str PORT) ++ Py.LF;
    ("📁 Directory: " ++ root W) ++ Py.LF;
    ("🎮 Open http://localhost:" ++ Py.str PORT ++ " in your browser") ++ Py.LF;
    "⏹️  Press Ctrl+C to stop" ++ Py.LF;
    Py.repeat "-" 50 ++ Py.LF ].

(** What [print("\n🛑 Server stopped")] writes. *)
Definition shutdown_notice : string := (Py.LF ++ "🛑 Server stopped") ++ Py.LF.

(** The process once the banner is out: in its directory, listening. *)
Definition listening (W : world) : process :=
  {| cwd := root W; socket := Listening "" PORT; bind_calls := [("", PORT)];
     stdout := banner W; stderr := []; steps := 8; sent := [] |}.

(** What a client gets back on its connection. *)
Definition response (W : world) (c : connection) : list chunk :=
  wfile (snd (CustomHandler_init W c)).

(** [served W clients p p']: from [p] to [p'] the server has answered
    [clients], in order, and changed nothing of its configuration. *)
Definition served (W : world) (clients : list connection) (p p' : process) : Prop :=
  cwd p' = cwd p /\
  socket p' = socket p /\
  bind_calls p' = bind_calls p /\
  sent p' = (sent p ++ map (response W) clients)%list /\
  (exists out, stdout p' = (stdout p ++ out)%list) /\
  (exists err, stderr p' = (stderr p ++ err)%list).

(** Where [translate_path] looks for the request path [p] under [d]. *)
Definition file_path (W : world) (d p : string) : string :=
  let q := Py.before "#" (Py.before "?" p) in
  let found :=
    fold_left
      (fun acc word =>
         if has_slash word || (word =? ".") || (word =? "..") then acc
         else os_path_join acc word)
      (filter (fun w => negb (w =? "")) (Py.split "/" (normpath W (unquote W q))))
      d in
  if Py.endswith (rstrip q) "/" then found ++ "/" else found.

(** The state after [line] has gone into the headers buffer. *)
Definition buffered (line : string) (h : handler) : handler :=
  set_headers_buffer
    (Some ((match _headers_buffer h with Some b => b | None => [] end) ++ [line])%list) h.

(** The state after the handler has printed the log message [m]. *)
Definition logged (m : string) (h : handler) : handler :=
  set_printed (printed h ++ [(("[" ++ client_address h ++ "] " ++ m) ++ Py.LF)%string])%list h.

(** The first line of a header block, as [send_response_only] formats it. *)
Definition status_line (code : Z) (message : string) : string :=
  protocol_version ++ " " ++ Py.str code ++ " " ++ message ++ Py.CRLF.

(** The codes for which [send_error] sends a page. *)
Definition has_body (code : Z) : bool :=
  ((200 <=? code) && negb ((code =? 204) || (code =? 205) || (code =? 304)))%Z.

(** The header block of an error response with a body, as [send_error]
    and then [CustomHandler.end_headers] build it. *)
Definition error_block (W : world) (code : Z) (message page p : string) : list string :=
  ([ status_line code message;
     header_line "Server" (version_string W);
     header_line "Date" (date_time_string W);
     header_line "Connection" "close";
     header_line "Content-Type" error_content_type;
     header_line "Content-Length" (Py.str (Z.of_nat (String.length page))) ]
   ++ cors_headers
   ++ (if Py.endswith p ".js" then [javascript_header] else [])
   ++ [Py.CRLF])%list.

(** The header block of a file served with status 200. *)
Definition file_block (W : world) (at_path data mtime p : string) : list string :=
  ([ status_line 200 "OK";
     header_line "Server" (version_string W);
     header_line "Date" (date_time_string W);
     header_line "Content-type" (guess_type W at_path);
     header_line "Content-Length" (Py.str (Z.of_nat (String.length data)));
     header_line "Last-Modified" mtime ]
   ++ cors_headers
   ++ (if Py.endswith p ".js" then [javascript_header] else [])
   ++ [Py.CRLF])%list.

(** The handler as [CustomHandler.__init__] sets it up for a connection. *)
Definition fresh_handler (W : world) (c : connection) : handler :=
  {| directory := root W; client_address := peer c; rfile := requests c;
     wfile := []; printed := []; requestline := ""; command := None; path := None;
     request_version := ""; headers := Headers false; close_connection := true;
     _headers_buffer := None |}.

(** The state in which the method for the request is called. *)
Definition parsed (line cmd p v : string) (fresh : bool) (h : handler) : handler :=
  set_headers (Headers fresh)
    (set_path (Some p)
       (set_command (Some cmd)
          (set_request_version v
             (set_requestline line
                (set_close_connection true
                   (set_request_version default_request_version
                      (set_command None h))))))).

(** The lines of the header block a response starts with. *)
Definition first_block (r : list chunk) : list string :=
  match r with
  | HeaderBlock lines :: _ => lines
  | _ => []
  end.

(** What the handler of a connection prints, from construction to the end. *)
Definition log_of (W : world) (c : connection) : list string :=
  printed (snd (CustomHandler_init W c)).

(** What [handle_error] writes to stderr when the handler of [c] raises. *)
Definition crash_report (W : world) (c : connection) : list string :=
  match fst (CustomHandler_init W c) with
  | Exc e =>
      [ Py.repeat "-" 40 ++ Py.LF;
        ("Exception occurred during processing of request from " ++ peer c) ++ Py.LF;
        format_exception_only e ++ Py.LF;
        Py.repeat "-" 40 ++ Py.LF ]
  | _ => []
  end.

(** The clients the serve loop gets to: none when the port is taken, all
    without Ctrl+C, and otherwise those handled in the steps after the nine
    that lead into the loop. *)
Definition answered (W : world) : list connection :=
  if port_in_use W PORT then []
  else match sigint_after W with
       | None => incoming W
       | Some n => firstn (n - 9) (incoming W)
       end.

(** [served_exactly W clients p p']: [served], with all that was printed. *)
Definition served_exactly (W : world) (clients : list connection) (p p' : process) : Prop :=
  cwd p' = cwd p /\
  socket p' = socket p /\
  bind_calls p' = bind_calls p /\
  sent p' = (sent p ++ map (response W) clients)%list /\
  stdout p' = (stdout p ++ flat_map (log_of W) clients)%list /\
  stderr p' = (stderr p ++ flat_map (crash_report W) clients)%list.

(** A line as [CustomHandler.log_message] prints it for the client [who]. *)
Definition log_line (who l : string) : Prop :=
  exists m, l = ("[" ++ who ++ "] " ++ m) ++ Py.LF.

(** [tidy_step h h']: from [h] to [h'] the handler has kept its client and
    what is left to read, has not reopened a connection that is to be
    closed, and has printed only log lines for its client. *)
Definition tidy_step (h h' : handler) : Prop :=
  client_address h' = client_address h /\
  rfile h' = rfile h /\
  (close_connection h = true -> close_connection h' = true) /\
  exists added, printed h' = (printed h ++ added)%list /\
                Forall (log_line (client_address h)) added.

Definition tidy {A} (m : H A) : Prop := forall h, tidy_step h (snd (m h)).

(** Whether a chunk fits the request being answered in state [h]: no
    header block under HTTP/0.9, no body for a HEAD. *)
Definition chunk_fits (h : handler) (c : chunk) : Prop :=
  match c with
  | HeaderBlock _ => request_version h <> "HTTP/0.9"
  | Body _ => command h <> Some "HEAD"
  end.

(** [steady_step h h']: from [h] to [h'] the request (path, version,
    command) is the same and only chunks that fit it have been sent. *)
Definition steady_step (h h' : handler) : Prop :=
  path h' = path h /\
  request_version h' = request_version h /\
  command h' = command h /\
  exists added, wfile h' = (wfile h ++ added)%list /\ Forall (chunk_fits h) added.

(** [steady m]: [m] takes steady steps and, when the request has a path,
    returns. *)
Definition steady {A} (m : H A) : Prop :=
  forall h, steady_step h (snd (m h)) /\ (path h <> None -> exists a, fst (m h) = Val a).

(** [buffers m]: [m] returns, having sent nothing and kept the request. *)
Definition buffers {A} (m : H A) : Prop :=
  forall h, exists a h',
    m h = (Val a, h') /\
    path h' = path h /\ request_version h' = request_version h /\
    command h' = command h /\ wfile h' = wfile h.

(** Whether the first request of a connection is one for which an error
    is to be sent before the request has a path: a request line that is too
    long, or one that [parse_request] rejects. *)
Definition early_error (c : connection) : bool :=
  match requests c with
  | LineTooLong :: _ => true
  | Line (Rejected _ _ _ _) :: _ => true
  | _ => false
  end.

(** The state in which an accepted request line leaves the handler, before
    its header section is looked at. *)
Definition with_request (line cmd p v : string) (h : handler) : handler :=
  set_path (Some p)
    (set_command (Some cmd)
       (set_request_version v
          (set_requestline line
             (set_close_connection true
                (set_request_version default_request_version
                   (set_command None h)))))).

Definition is_body (c : chunk) : Prop :=
  match c with Body _ => True | HeaderBlock _ => False end.

(** [answers_once m]: for a request with a path and a version other than
    HTTP/0.9, [m] sends one header block and after it nothing but bodies. *)
Definition answers_once {A} (m : H A) : Prop :=
  forall h, path h <> None -> request_version h <> "HTTP/0.9" ->
    exists lines rest,
      wfile (snd (m h)) = (wfile h ++ HeaderBlock lines :: rest)%list /\
      Forall is_body rest.

(** [bodies_only m]: [m] sends nothing but bodies. *)
Definition bodies_only {A} (m : H A) : Prop :=
  forall h, exists rest, wfile (snd (m h)) = (wfile h ++ rest)%list /\ Forall is_body rest.

(** The two kinds of line that the base classes log through
    [log_message]: by [log_request], for a response with status [code] to
    the request line [line], and by [log_error]. *)
Definition request_log (who line : string) (code : Z) : string :=
  ("[" ++ who ++ "] " ++ (Py.dquote ++ line ++ Py.dquote ++ " " ++ Py.str code ++ " -"))
    ++ Py.LF.

Definition error_log (who : string) (code : Z) (message : string) : string :=
  ("[" ++ who ++ "] " ++ ("code " ++ Py.str code ++ ", message " ++ message)) ++ Py.LF.

(** [mute_step h h']: nothing was printed from [h] to [h'], and what a log
    line would show is the same. *)
Definition mute_step (h h' : handler) : Prop :=
  printed h' = printed h /\
  client_address h' = client_address h /\
  requestline h' = requestline h.

Definition mute {A} (m : H A) : Prop := forall h, mute_step h (snd (m h)).

(** [finishes m]: [m] prints nothing and, for a request with a path and a
    version other than HTTP/0.9, sends the buffered lines as the start of
    one header block. *)
Definition finishes {A} (m : H A) : Prop :=
  mute m /\
  forall h x l,
    request_version h <> "HTTP/0.9" -> path h <> None ->
    _headers_buffer h = Some (x :: l) ->
    exists lines rest, wfile (snd (m h)) = (wfile h ++ HeaderBlock (x :: lines) :: rest)%list.

(** The headers buffer holds nothing. *)
Definition buffer_empty (h : handler) : Prop :=
  _headers_buffer h = None \/ _headers_buffer h = Some [].

(** What is logged for a response with status [code], and what is sent. *)
Definition reported (code : Z) (h h' : handler) : Prop :=
  (printed h' = (printed h ++ [request_log (client_address h) (requestline h) code])%list \/
   exists message,
     printed h' = (printed h ++ [error_log (client_address h) code message;
                                 request_log (client_address h) (requestline h) code])%list) /\
  (request_version h <> "HTTP/0.9" ->
   exists message lines rest,
     wfile h' = (wfile h ++ HeaderBlock (status_line code message :: lines) :: rest)%list).

(** [reports m]: called for a request with a path, with nothing buffered,
    [m] answers with one status, which it logs. *)
Definition reports {A} (m : H A) : Prop :=
  forall h, path h <> None -> buffer_empty h -> exists code, reported code h (snd (m h)).

(** [reads m]: [m] returns without a change of state, if there is a path. *)
Definition reads {A} (m : H A) : Prop :=
  forall h, path h <> None -> exists a, m h = (Val a, h).

(** [trails m]: [m] prints nothing and only adds to what was sent. *)
Definition trails {A} (m : H A) : Prop :=
  mute m /\ forall h, exists rest, wfile (snd (m h)) = (wfile h ++ rest)%list.

(** The final state of a run, field by field, in each of the four ways
    [main] can go. *)
Record outcome_is (W : world) (t : termination) (so : socket_state)
    (binds : list (string * Z)) (out err : list string) : Prop := {
  run_termination : fst (run W) = t;
  run_socket : socket (snd (run W)) = so;
  run_bind_calls : bind_calls (snd (run W)) = binds;
  run_sent : sent (snd (run W)) = map (response W) (answered W);
  run_stdout : stdout (snd (run W)) = out;
  run_stderr : stderr (snd (run W)) = err;
}.

(** What the interpreter writes to stderr for an exception that nothing
    catches: the head of the traceback and the line of the exception. *)
Definition traceback_of (e : exn) : list string :=
  [ "Traceback (most recent call last):" ++ Py.LF; format_exception_only e ++ Py.LF ].

(** The cases of a run: what Ctrl+C and the port make of it. *)
Inductive run_case (W : world) : Prop :=
| early (n : nat) (Hs : sigint_after W = Some n) (Hn : n < 8)
    (Hf : n < 2 \/ port_in_use W PORT = false)
| busy (Hb : port_in_use W PORT = true) (Hq : quiet_until W 2)
| serving (Hf : port_in_use W PORT = false) (Hs : sigint_after W = None)
| stopped (n : nat) (Hf : port_in_use W PORT = false) (Hs : sigint_after W = Some n)
    (Hn : 8 <= n).

(** The world with another file system. *)
Definition with_fs (f : string -> node) (W : world) : world :=
  {| script_file := script_file W; invocation_cwd := invocation_cwd W; fs := f;
     port_in_use := port_in_use W; sigint_after := sigint_after W; incoming := incoming W;
     unquote := unquote W; normpath := normpath W; guess_type := guess_type W;
     urlsplit_path := urlsplit_path W; redirect_url := redirect_url W;
     version_string := version_string W; date_time_string := date_time_string W;
     filesystemencoding := filesystemencoding W; error_page := error_page W;
     listing_page := listing_page W |}.

(** Two file systems hold the same at every path that starts with [d]. *)
Definition same_below (d : string) (f g : string -> node) : Prop :=
  forall rest, f (d ++ rest) = g (d ++ rest).

(** A file system like that of the concrete world, with a file outside the
    directory of the script. *)
Definition demo_fs_with_passwd (path : string) : node :=
  if path =? "/etc/passwd"
  then File "root:x:0:0:root:/root:/bin/sh" "Thu, 01 Jan 2026 00:00:00 GMT"
  else demo_fs path.

(** ** The concrete world at work *)

Example endswith_js : Py.endswith "/app.js" ".js" = true.
Proof. reflexivity. Qed.

Example endswith_js_query : Py.endswith "/app.js?v=1" ".js" = false.
Proof. reflexivity. Qed.

Example file_path_of_query :
  file_path (demo false None []) (root (demo false None [])) "/app.js?v=1"
  = "/home/dev/NeverEverLand/v003/app.js".
Proof. reflexivity. Qed.

Example file_path_of_dots :
  file_path (demo false None []) (root (demo false None [])) "/../x/./app.js"
  = "/home/dev/NeverEverLand/v003/x/app.js".
Proof. reflexivity. Qed.

(** A GET for a script that is not there. *)
Example response_to_missing_script :
  response (demo false None []) (browser [GET "/nope.js"]) =
  [ HeaderBlock
      [ "HTTP/1.0 404 File not found" ++ Py.CRLF;
        "Server: SimpleHTTP/0.6 Python/3.11.2" ++ Py.CRLF;
        "Date: Tue, 03 Nov 2026 09:00:00 GMT" ++ Py.CRLF;
        "Connection: close" ++ Py.CRLF;
        "Content-Type: text/html;charset=utf-8" ++ Py.CRLF;
        "Content-Length: 53" ++ Py.CRLF;
        "Access-Control-Allow-Origin: *" ++ Py.CRLF;
        "Access-Control-Allow-Methods: GET, POST, OPTIONS" ++ Py.CRLF;
        "Access-Control-Allow-Headers: Content-Type" ++ Py.CRLF;
        "Content-Type: text/javascript" ++ Py.CRLF;
        Py.CRLF ];
    Body "<p>Error code: 404</p><p>Message: File not found.</p>" ].
Proof. vm_compute. reflexivity. Qed.

(** A request line of one word: [send_error] is called before there is a
    path, [end_headers] raises, and the client gets nothing. *)
Example response_to_garbage :
  CustomHandler_init (demo false None [])
    (browser [Line (Rejected "GARBAGE" "HTTP/0.9" 400 "Bad request syntax ('GARBAGE')")])
  = (Exc (AttributeError "path"),
     {| directory := "/home/dev/NeverEverLand/v003";
        client_address := "127.0.0.1";
        rfile := [];
        wfile := [];
        printed :=
          [ "[127.0.0.1] code 400, message Bad request syntax ('GARBAGE')" ++ Py.LF;
            "[127.0.0.1] " ++ Py.dquote ++ "GARBAGE" ++ Py.dquote ++ " 400 -" ++ Py.LF ];
        requestline := "GARBAGE";
        command := None;
        path := None;
        request_version := "HTTP/0.9";
        headers := Headers false;
        close_connection := true;
        _headers_buffer := None |}).
Proof. vm_compute. reflexivity. Qed.

(** Two clients, then Ctrl+C. *)
Example run_until_interrupt :
  let W := demo false (Some 11) [browser [GET "/index.html"]; browser [POST "/save"]] in
  fst (run W) = Exited 0 /\
  map (answers_with 200) (sent (snd (run W))) = [true; false] /\
  map (answers_with 501) (sent (snd (run W))) = [false; true] /\
  socket (snd (run W)) = Closed.
Proof. vm_compute. repeat split. Qed.

(** ** A program logic for handlers

    [respects m]: whatever the state, [m] leaves [directory] alone, adds
    only chunks that are in order to [wfile], and comes back with a value
    or an [Exception]. *)

Definition sends_in_order (h h' : handler) : Prop :=
  directory h' = directory h /\
  exists added, wfile h' = (wfile h ++ added)%list /\ Forall cors_chunk added.

Definition returns_or_fails {A} (r : result A) : Prop :=
  match r with
  | Val _ => True
  | Exc e => is_Exception e = true
  | Blocked => False
  end.

Definition respects {A} (m : H A) : Prop :=
  forall h, sends_in_order h (snd (m h)) /\ returns_or_fails (fst (m h)).

Lemma sends_in_order_refl h : sends_in_order h h.
Proof.
  split; [reflexivity|]. exists []. split; [now rewrite app_nil_r | constructor].
Qed.

Lemma sends_in_order_trans h1 h2 h3 :
  sends_in_order h1 h2 -> sends_in_order h2 h3 -> sends_in_order h1 h3.
Proof.
  intros [D1 [a1 [E1 F1]]] [D2 [a2 [E2 F2]]]. split; [congruence|].
  exists (a1 ++ a2)%list. split.
  - rewrite E2, E1. now rewrite app_assoc.
  - apply Forall_app. now split.
Qed.

Lemma respects_ret {A} (a : A) : respects (ret a).
Proof. intro h. split; [apply sends_in_order_refl | exact I]. Qed.

Lemma respects_bind {A B} (m : H A) (k : A -> H B) :
  respects m -> (forall a, respects (k a)) -> respects (bind m k).
Proof.
  intros Hm Hk h. unfold bind. specialize (Hm h).
  destruct (m h) as [[a|e|] h1]; cbn [fst snd] in *.
  - destruct Hm as [S1 _]. destruct (Hk a h1) as [S2 R2].
    split; [eapply sends_in_order_trans; eassumption | assumption].
  - assumption.
  - assumption.
Qed.

Lemma respects_gets {A} (f : handler -> A) : respects (gets f).
Proof. intro h. split; [apply sends_in_order_refl | exact I]. Qed.

Lemma respects_raise {A} (e : exn) : is_Exception e = true -> respects (@raise handler A e).
Proof. intros He h. split; [apply sends_in_order_refl | exact He]. Qed.

(** A state change that touches neither [directory] nor [wfile]. *)
Lemma respects_modify (f : handler -> handler) :
  (forall h, directory (f h) = directory h /\ wfile (f h) = wfile h) ->
  respects (modify f).
Proof.
  intros Hf h. cbn. destruct (Hf h) as [D Wf]. split; [|exact I].
  split; [exact D|]. exists []. split; [now rewrite app_nil_r | constructor].
Qed.

Lemma respects_write (c : chunk) : cors_chunk c -> respects (write c).
Proof.
  intros Hc h. cbn. split; [|exact I]. split; [reflexivity|].
  exists [c]. split; [reflexivity | now constructor].
Qed.

Lemma respects_when (b : bool) (m : H unit) : respects m -> respects (when b m).
Proof. intro Hm. destruct b; [exact Hm | apply respects_ret]. Qed.

Lemma respects_self_path : respects self_path.
Proof.
  intro h. unfold self_path. destruct (path h); cbn.
  - split; [apply sends_in_order_refl | exact I].
  - split; [apply sends_in_order_refl | reflexivity].
Qed.

Lemma respects_readline : respects readline.
Proof.
  intro h. unfold readline. destruct (rfile h); cbn.
  - split; [apply sends_in_order_refl | exact I].
  - split; [|exact I]. split; [reflexivity|]. exists [].
    split; [now rewrite app_nil_r | constructor].
Qed.

Create HintDb respects.
#[local] Hint Resolve respects_ret respects_gets respects_self_path respects_readline
  respects_when : respects.

(** One rule per shape of handler code; what is left are the calls of other
    methods, closed by the lemmas about them in the hint database. *)
Ltac respects_step :=
  lazymatch goal with
  | |- respects (bind _ _) => apply respects_bind; [|intro]
  | |- respects (ret _) => apply respects_ret
  | |- respects (gets _) => apply respects_gets
  | |- respects (when _ _) => apply respects_when
  | |- respects (modify _) => apply respects_modify; intro; split; reflexivity
  | |- respects (write (Body _)) => apply respects_write; exact I
  | |- respects (raise _) => apply respects_raise; reflexivity
  | |- respects (if ?b then _ else _) => destruct b
  | |- respects (match ?x with _ => _ end) => destruct x
  | |- respects (let '(_, _) := ?x in _) => destruct x
  | |- _ => solve [auto with respects]
  end.

Ltac respects_auto := repeat respects_step.

Lemma respects_buffer_append line : respects (buffer_append line).
Proof. unfold buffer_append. respects_auto. Qed.

Lemma respects_send_response_only code message : respects (send_response_only code message).
Proof.
  pose proof respects_buffer_append.
  unfold send_response_only. respects_auto.
Qed.

Lemma respects_send_header keyword value : respects (send_header keyword value).
Proof.
  pose proof respects_buffer_append.
  unfold send_header. respects_auto.
Qed.

#[local] Hint Resolve respects_buffer_append respects_send_response_only
  respects_send_header : respects.

Section RespectsClasses.

Variable W : world.
Variable self_end_headers : H unit.
Variable self_log_message : string -> H unit.
Hypothesis respects_self_end_headers : respects self_end_headers.
Hypothesis respects_self_log_message : forall m, respects (self_log_message m).

Local Hint Resolve respects_self_end_headers respects_self_log_message : respects.

Lemma respects_log_request code : respects (log_request self_log_message code).
Proof. unfold log_request. respects_auto. Qed.

Lemma respects_log_error m : respects (log_error self_log_message m).
Proof. unfold log_error. respects_auto. Qed.

Local Hint Resolve respects_log_request respects_log_error : respects.

Lemma respects_send_response code message :
  respects (send_response W self_log_message code message).
Proof. unfold send_response. respects_auto. Qed.

Local Hint Resolve respects_send_response : respects.

Lemma respects_send_error code message explain :
  respects (send_error W self_end_headers self_log_message code message explain).
Proof.
  unfold send_error.
  destruct (match responses code with Some sl => sl | None => ("???", "???") end).
  respects_auto.
Qed.

Local Hint Resolve respects_send_error : respects.

Lemma respects_translate_path p : respects (translate_path W p).
Proof. unfold translate_path. respects_auto. Qed.

Local Hint Resolve respects_translate_path : respects.

Lemma respects_send_file path :
  respects (send_file W self_end_headers self_log_message path).
Proof. unfold send_file. respects_auto. Qed.

Lemma respects_list_directory path :
  respects (list_directory W self_end_headers self_log_message path).
Proof. unfold list_directory. respects_auto. Qed.

Local Hint Resolve respects_send_file respects_list_directory : respects.

Lemma respects_send_head : respects (send_head W self_end_headers self_log_message).
Proof. unfold send_head. respects_auto. Qed.

Local Hint Resolve respects_send_head : respects.

Lemma respects_self_do c m :
  self_do W self_end_headers self_log_message c = Some m -> respects m.
Proof.
  unfold self_do.
  destruct (c =? "GET").
  - intros [= <-]. unfold do_GET, copyfile. respects_auto.
  - destruct (c =? "HEAD"); [|discriminate].
    intros [= <-]. unfold do_HEAD. respects_auto.
Qed.

Lemma respects_parse_request r :
  respects (parse_request W self_end_headers self_log_message r).
Proof. unfold parse_request. respects_auto. Qed.

Local Hint Resolve respects_parse_request : respects.

Lemma respects_handle_one_request :
  respects (handle_one_request W self_end_headers self_log_message).
Proof.
  unfold handle_one_request.
  apply respects_bind; [auto with respects|]. intros [[|r]|].
  - respects_auto.
  - apply respects_bind; [auto with respects|]. intros [|]; [|apply respects_ret].
    apply respects_bind; [apply respects_gets|]. intro c.
    destruct (self_do W self_end_headers self_log_message _) eqn:E.
    + eapply respects_self_do; exact E.
    + auto with respects.
  - respects_auto.
Qed.

Local Hint Resolve respects_handle_one_request : respects.

Lemma respects_handle_more fuel :
  respects (handle_more W self_end_headers self_log_message fuel).
Proof.
  induction fuel as [|fuel IH]; cbn [handle_more].
  - apply respects_ret.
  - apply respects_bind; [apply respects_gets|]. intros [|]; [apply respects_ret|].
    apply respects_bind; [auto with respects | intros _; exact IH].
Qed.

Lemma respects_handle : respects (handle W self_end_headers self_log_message).
Proof.
  unfold handle.
  pose proof respects_handle_more.
  respects_auto.
Qed.

End RespectsClasses.

(** ** What [CustomHandler.end_headers] sends *)

Lemma bind_Val {S A B} (m : M S A) (k : A -> M S B) s a s' :
  m s = (Val a, s') -> bind m k s = k a s'.
Proof. intros E. unfold bind. now rewrite E. Qed.

Lemma bind_Exc {S A B} (m : M S A) (k : A -> M S B) s e s' :
  m s = (Exc e, s') -> bind m k s = (Exc e, s').
Proof. intros E. unfold bind. now rewrite E. Qed.

(** [send_header] for a header other than [Connection]. *)
Lemma send_header_plain keyword value h :
  (Py.lower keyword =? "connection") = false ->
  send_header keyword value h =
  (Val tt, if request_version h =? "HTTP/0.9" then h
           else buffered (header_line keyword value) h).
Proof.
  intros Hk. unfold send_header, when, bind, gets, buffer_append, modify, ret.
  rewrite Hk. destruct (request_version h =? "HTTP/0.9"); reflexivity.
Qed.

Lemma end_headers_flushes h lines :
  (request_version h =? "HTTP/0.9") = false ->
  _headers_buffer h = Some lines ->
  end_headers h =
  (Val tt, set_headers_buffer (Some [])
             (set_wfile (wfile h ++ [HeaderBlock (lines ++ [Py.CRLF])])%list h)).
Proof.
  intros Hv Hb. unfold end_headers, flush_headers, when, bind, gets, modify, write, ret.
  rewrite Hv. cbn [negb]. rewrite Hb. reflexivity.
Qed.

(** With a request path and a request version other than HTTP/0.9, the
    block that goes out is the buffer so far, the three CORS lines, the
    JavaScript line if the path ends in [.js], and the blank line. *)
Lemma CustomHandler_end_headers_flushes h p :
  path h = Some p ->
  (request_version h =? "HTTP/0.9") = false ->
  CustomHandler_end_headers h =
  (Val tt,
   set_headers_buffer (Some [])
     (set_wfile
        (wfile h ++
         [HeaderBlock
            ((match _headers_buffer h with Some b => b | None => [] end)
             ++ cors_headers
             ++ (if Py.endswith p ".js" then [javascript_header] else [])
             ++ [Py.CRLF])])%list h)).
Proof.
  intros Hp Hv. unfold CustomHandler_end_headers.
  do 3 (erewrite bind_Val;
        [|rewrite send_header_plain by reflexivity;
          cbn [request_version buffered set_headers_buffer]; rewrite Hv; reflexivity]).
  erewrite bind_Val;
    [|unfold self_path; cbn [path buffered set_headers_buffer]; rewrite Hp; reflexivity].
  unfold when. destruct (Py.endswith p ".js").
  - erewrite bind_Val;
      [|rewrite send_header_plain by reflexivity;
        cbn [request_version buffered set_headers_buffer]; rewrite Hv; reflexivity].
    erewrite end_headers_flushes; [|exact Hv|reflexivity].
    cbn [directory client_address rfile wfile printed requestline command path
         request_version headers close_connection _headers_buffer
         buffered set_headers_buffer set_wfile].
    unfold cors_headers. repeat rewrite <- app_assoc. reflexivity.
  - erewrite bind_Val; [|reflexivity].
    erewrite end_headers_flushes; [|exact Hv|reflexivity].
    cbn [directory client_address rfile wfile printed requestline command path
         request_version headers close_connection _headers_buffer
         buffered set_headers_buffer set_wfile].
    unfold cors_headers. repeat rewrite <- app_assoc. reflexivity.
Qed.

(** Under HTTP/0.9 nothing is buffered and nothing is sent. *)
Lemma CustomHandler_end_headers_simple h :
  (request_version h =? "HTTP/0.9") = true ->
  snd (CustomHandler_end_headers h) = h.
Proof.
  intros Hv. unfold CustomHandler_end_headers.
  do 3 (erewrite bind_Val; [|rewrite send_header_plain by reflexivity; rewrite Hv; reflexivity]).
  unfold self_path at 1. unfold bind at 1. destruct (path h) as [p|]; [|reflexivity].
  unfold when. destruct (Py.endswith p ".js").
  - erewrite bind_Val; [|rewrite send_header_plain by reflexivity; rewrite Hv; reflexivity].
    unfold end_headers, when, bind, gets. rewrite Hv. reflexivity.
  - erewrite bind_Val; [|reflexivity].
    unfold end_headers, when, bind, gets. rewrite Hv. reflexivity.
Qed.

(** Without a request path the method raises before it sends anything. *)
Lemma CustomHandler_end_headers_no_path h :
  path h = None ->
  fst (CustomHandler_end_headers h) = Exc (AttributeError "path") /\
  wfile (snd (CustomHandler_end_headers h)) = wfile h /\
  directory (snd (CustomHandler_end_headers h)) = directory h.
Proof.
  intros Hp. unfold CustomHandler_end_headers.
  do 3 (erewrite bind_Val; [|rewrite send_header_plain by reflexivity; reflexivity]).
  erewrite bind_Exc.
  2:{ unfold self_path.
      replace (path _) with (@None string); [reflexivity|].
      rewrite <- Hp. now repeat destruct (request_version _ =? "HTTP/0.9"). }
  cbn [fst snd]. repeat split;
    now repeat (destruct (request_version _ =? "HTTP/0.9"); cbn).
Qed.

Lemma respects_CustomHandler_end_headers : respects CustomHandler_end_headers.
Proof.
  intro h. destruct (path h) as [p|] eqn:Hp.
  - destruct (request_version h =? "HTTP/0.9") eqn:Hv.
    + pose proof (CustomHandler_end_headers_simple h Hv) as E.
      destruct (CustomHandler_end_headers h) as [r h'] eqn:R. cbn [fst snd] in *. subst h'.
      split; [apply sends_in_order_refl|].
      revert R. unfold CustomHandler_end_headers.
      do 3 (erewrite bind_Val;
            [|rewrite send_header_plain by reflexivity; rewrite Hv; reflexivity]).
      erewrite bind_Val; [|unfold self_path; rewrite Hp; reflexivity].
      unfold when. destruct (Py.endswith p ".js").
      * erewrite bind_Val;
          [|rewrite send_header_plain by reflexivity; rewrite Hv; reflexivity].
        unfold end_headers, when, bind, gets. rewrite Hv. cbn. now intros [= <-].
      * erewrite bind_Val; [|reflexivity].
        unfold end_headers, when, bind, gets. rewrite Hv. cbn. now intros [= <-].
    + rewrite (CustomHandler_end_headers_flushes h p Hp Hv). cbn [fst snd].
      split; [|exact I]. split; [reflexivity|].
      eexists. split; [reflexivity|]. constructor; [|constructor].
      cbn [cors_chunk]. intros l Hl. apply in_or_app. right. apply in_or_app. now left.
  - destruct (CustomHandler_end_headers_no_path h Hp) as (E & Wf & D).
    split.
    + split; [exact D|]. exists []. split; [now rewrite app_nil_r | constructor].
    + rewrite E. reflexivity.
Qed.

Lemma respects_CustomHandler_log_message m : respects (CustomHandler_log_message m).
Proof.
  unfold CustomHandler_log_message, handler_print. respects_auto.
Qed.

(** A handler, from construction to the end of [handle]. *)
Lemma respects_CustomHandler W :
  respects (handle W CustomHandler_end_headers CustomHandler_log_message).
Proof.
  apply respects_handle.
  - exact respects_CustomHandler_end_headers.
  - exact respects_CustomHandler_log_message.
Qed.

(** ** The serve loop *)

Lemma served_intro W clients p p' out err :
  cwd p' = cwd p -> socket p' = socket p -> bind_calls p' = bind_calls p ->
  sent p' = (sent p ++ map (response W) clients)%list ->
  stdout p' = (stdout p ++ out)%list -> stderr p' = (stderr p ++ err)%list ->
  served W clients p p'.
Proof. intros. unfold served. eauto 10. Qed.

Lemma served_nil W p : served W [] p p.
Proof. apply (served_intro W [] p p [] []); cbn; now rewrite ?app_nil_r. Qed.

Lemma served_cons W c clients p1 p2 p3 :
  served W [c] p1 p2 -> served W clients p2 p3 -> served W (c :: clients) p1 p3.
Proof.
  intros (C1 & S1 & B1 & T1 & [o1 O1] & [e1 E1]) (C2 & S2 & B2 & T2 & [o2 O2] & [e2 E2]).
  apply (served_intro W (c :: clients) p1 p3 (o1 ++ o2) (e1 ++ e2)); try congruence.
  - rewrite T2, T1. cbn. now rewrite <- app_assoc.
  - rewrite O2, O1. now rewrite app_assoc.
  - rewrite E2, E1. now rewrite app_assoc.
Qed.

(** A connection is always handled to the end: an exception of the handler
    is reported on stderr and goes no further. *)
Lemma handle_request_noblock_returns W c p :
  exists p', _handle_request_noblock W c p = (Val tt, p') /\
             steps p' = steps p /\ served W [c] p p'.
Proof.
  assert (R : returns_or_fails (fst (CustomHandler_init W c)))
    by exact (proj2 (respects_CustomHandler W _)).
  assert (E : response W c = wfile (snd (CustomHandler_init W c))) by reflexivity.
  unfold _handle_request_noblock, try_except, process_request, bind, finish_request,
    shutdown_request, ret.
  destruct (CustomHandler_init W c) as [[[]|e|] h]; cbn [fst snd] in *.
  - eexists. split; [reflexivity|]. split; [reflexivity|].
    apply (served_intro W [c] _ _ (printed h) []); try reflexivity.
    + cbn. now rewrite E.
    + cbn. now rewrite app_nil_r.
  - rewrite R. unfold handle_error, bind, eprint, modify, raise.
    eexists. split; [reflexivity|]. split; [reflexivity|].
    eapply (served_intro W [c] _ _ (printed h)); try reflexivity.
    + cbn. now rewrite E.
    + cbn [stderr set_stderr set_sent set_stdout]. repeat rewrite <- app_assoc. reflexivity.
  - contradiction.
Qed.

Lemma tick_passes W p :
  (forall n, sigint_after W = Some n -> n <> steps p) ->
  tick W p = (Val tt, set_steps (S (steps p)) p).
Proof.
  intros Hq. unfold tick. destruct (sigint_after W) as [k|]; [|reflexivity].
  destruct (Nat.eqb_spec k (steps p)); [|reflexivity].
  exfalso. now apply (Hq k).
Qed.

Lemma tick_fires W p :
  sigint_after W = Some (steps p) ->
  tick W p = (Exc KeyboardInterrupt, set_steps (S (steps p)) p).
Proof. intros Hs. unfold tick. rewrite Hs, Nat.eqb_refl. reflexivity. Qed.

(** Without Ctrl+C the loop answers everybody and then waits. *)
Lemma serve_loop_blocks W :
  sigint_after W = None ->
  forall clients p,
  exists p', serve_loop W clients p = (Blocked, p') /\ served W clients p p'.
Proof.
  intros Hs. induction clients as [|c rest IH]; intro p; cbn [serve_loop].
  - exists p. unfold wait_for_signal. rewrite Hs. split; [reflexivity | apply served_nil].
  - erewrite bind_Val; [|apply tick_passes; intros n E; congruence].
    destruct (handle_request_noblock_returns W c (set_steps (S (steps p)) p))
      as (p1 & E1 & _ & S1).
    erewrite bind_Val; [|exact E1].
    destruct (IH p1) as (p2 & E2 & S2).
    exists p2. split; [exact E2|].
    eapply served_cons; [|exact S2]. exact S1.
Qed.

(** With Ctrl+C still to come after [n] steps, the loop answers the
    clients it gets to before that and raises [KeyboardInterrupt]. *)
Lemma serve_loop_interrupted W n :
  sigint_after W = Some n ->
  forall clients p,
  steps p <= n ->
  exists p', serve_loop W clients p = (Exc KeyboardInterrupt, p') /\
             served W (firstn (n - steps p) clients) p p'.
Proof.
  intros Hs. induction clients as [|c rest IH]; intros p Hp; cbn [serve_loop].
  - exists p. unfold wait_for_signal. rewrite Hs.
    destruct (Nat.leb_spec (steps p) n); [|lia].
    split; [reflexivity|]. rewrite firstn_nil. apply served_nil.
  - destruct (Nat.eq_dec n (steps p)) as [E|NE].
    + erewrite bind_Exc; [|apply tick_fires; congruence].
      eexists. split; [reflexivity|].
      replace (n - steps p) with 0 by lia.
      apply (served_intro W [] _ _ [] []); cbn; now rewrite ?app_nil_r.
    + erewrite bind_Val; [|apply tick_passes; intros k Ek; congruence].
      destruct (handle_request_noblock_returns W c (set_steps (S (steps p)) p))
        as (p1 & E1 & St1 & S1).
      erewrite bind_Val; [|exact E1].
      destruct (IH p1) as (p2 & E2 & S2); [rewrite St1; cbn; lia|].
      exists p2. split; [exact E2|].
      replace (n - steps p) with (S (n - steps p1)) by (rewrite St1; cbn; lia).
      cbn [firstn]. eapply served_cons; [|exact S2]. exact S1.
Qed.

(** ** Start-up *)

Lemma step_passes W {A} (m : P A) p :
  (forall n, sigint_after W = Some n -> n <> steps p) ->
  step W m p = m (set_steps (S (steps p)) p).
Proof. intros Hq. unfold step. now rewrite (bind_Val _ _ _ _ _ (tick_passes W p Hq)). Qed.

Lemma step_fires W {A} (m : P A) p :
  sigint_after W = Some (steps p) ->
  step W m p = (Exc KeyboardInterrupt, set_steps (S (steps p)) p).
Proof. intros Hs. unfold step. now rewrite (bind_Exc _ _ _ _ _ (tick_fires W p Hs)). Qed.

Lemma TCPServer_init_free W address p :
  port_in_use W (snd address) = false ->
  TCPServer_init W address p =
  (Val tt, set_socket (Listening (fst address) (snd address))
             (set_bind_calls (bind_calls p ++ [address])%list p)).
Proof.
  intros Hf. unfold TCPServer_init, try_except, server_bind, server_activate, bind, modify.
  cbn. rewrite Hf. reflexivity.
Qed.

Lemma TCPServer_init_busy W address p :
  port_in_use W (snd address) = true ->
  TCPServer_init W address p =
  (Exc (OSError 98 "Address already in use"),
   set_socket Closed (set_bind_calls (bind_calls p ++ [address])%list p)).
Proof.
  intros Hb. unfold TCPServer_init, try_except, server_bind, server_close, bind, modify, raise.
  cbn. rewrite Hb. reflexivity.
Qed.

Ltac process_fields :=
  cbn [cwd socket bind_calls stdout stderr steps sent
       set_cwd set_socket set_bind_calls set_stdout set_stderr set_steps set_sent
       initial fst snd app].

(** The side condition of [step_passes], from what is known of
    [sigint_after W]. *)
Ltac no_signal_now :=
  process_fields;
  let k := fresh "k" in
  let Ek := fresh "Ek" in
  intros k Ek;
  match goal with
  | Hs : sigint_after _ = None |- _ => congruence
  | Hs : sigint_after _ = Some _ |- _ => rewrite Hs in Ek; injection Ek as <-; lia
  | Hq : quiet_until _ _ |- _ => specialize (Hq k Ek); lia
  end.

(** Take the next statement of [main], which the signal does not stop. *)
Ltac next_statement :=
  unfold bind at 1;
  rewrite step_passes by no_signal_now;
  unfold os_chdir, print, modify;
  process_fields.

(** The same for the statement that reads [os.getcwd()] first. *)
Ltac next_statement_getcwd :=
  unfold bind at 1;
  rewrite step_passes by no_signal_now;
  unfold bind at 1; unfold os_getcwd, gets, print, modify;
  process_fields.

Lemma main_enters_serve_loop W :
  port_in_use W PORT = false ->
  quiet_until W 8 ->
  main W (initial W) =
  try_finally
    (try_except (step W (serve_forever W)) is_KeyboardInterrupt
       (fun _ => print (Py.LF ++ "🛑 Server stopped") ;; sys_exit 0))
    server_close (listening W).
Proof.
  intros Hf Hq. unfold main.
  next_statement.
  unfold bind at 1. rewrite step_passes by no_signal_now.
  rewrite TCPServer_init_free by exact Hf. process_fields.
  unfold try_finally at 1.
  do 2 next_statement. next_statement_getcwd. do 3 next_statement.
  reflexivity.
Qed.

(** The statement the signal stops. *)
Ltac interrupted_statement :=
  unfold bind at 1;
  rewrite step_fires by (process_fields; assumption);
  process_fields.

(** ** The four ways [main] goes *)

(** The port is taken: [OSError], before anything is printed. *)
Lemma main_bind_fails W :
  port_in_use W PORT = true ->
  quiet_until W 2 ->
  main W (initial W) =
  (Exc (OSError 98 "Address already in use"),
   {| cwd := root W; socket := Closed; bind_calls := [("", PORT)];
      stdout := []; stderr := []; steps := 2; sent := [] |}).
Proof.
  intros Hb Hq. unfold main.
  next_statement.
  unfold bind at 1. rewrite step_passes by no_signal_now.
  rewrite TCPServer_init_busy by exact Hb. reflexivity.
Qed.

(** No Ctrl+C ever: every client is answered, and the server waits. *)
Lemma main_serves W :
  port_in_use W PORT = false ->
  sigint_after W = None ->
  exists p, main W (initial W) = (Blocked, p) /\ served W (incoming W) (listening W) p.
Proof.
  intros Hf Hs.
  rewrite main_enters_serve_loop; [|exact Hf|intros n E; congruence].
  unfold try_finally, try_except.
  rewrite step_passes by no_signal_now.
  destruct (serve_loop_blocks W Hs (incoming W) (set_steps (S (steps (listening W))) (listening W)))
    as (p & E & Sv).
  unfold serve_forever. rewrite E. exists p. split; [reflexivity | exact Sv].
Qed.

(** Ctrl+C in the serve loop: the clients before it are answered, the
    notice is printed, the socket is closed and [SystemExit(0)] leaves
    [main]. *)
Lemma main_interrupted W n :
  port_in_use W PORT = false ->
  sigint_after W = Some n ->
  8 <= n ->
  exists p logs,
    main W (initial W) = (Exc (SystemExit 0), p) /\
    socket p = Closed /\
    cwd p = root W /\
    bind_calls p = [("", PORT)] /\
    sent p = map (response W) (firstn (n - 9) (incoming W)) /\
    stdout p = (banner W ++ logs ++ [shutdown_notice])%list.
Proof.
  intros Hf Hs Hn.
  rewrite main_enters_serve_loop; [|exact Hf|intros k E; rewrite Hs in E; injection E as <-; exact Hn].
  unfold try_finally, try_except.
  destruct (Nat.eq_dec n 8) as [->|Hne].
  - rewrite step_fires by exact Hs. cbn [is_KeyboardInterrupt].
    exists (set_socket Closed
              (set_stdout (banner W ++ [shutdown_notice])%list
                 (set_steps 9 (listening W)))), [].
    repeat split.
  - rewrite step_passes by (unfold listening; no_signal_now).
    destruct (serve_loop_interrupted W n Hs (incoming W)
                (set_steps (S (steps (listening W))) (listening W)))
      as (p & E & (C & S & B & T & [out O] & _)); [cbn; lia|].
    unfold serve_forever. rewrite E. cbn [is_KeyboardInterrupt].
    exists (set_socket Closed (set_stdout (stdout p ++ [shutdown_notice])%list p)), out.
    unfold listening in C, S, B, T, O.
    cbn [cwd socket bind_calls stdout sent set_steps app] in C, S, B, T, O.
    repeat split; process_fields; try assumption.
    rewrite O. now rewrite <- app_assoc.
Qed.

(** Ctrl+C before the serve loop: [KeyboardInterrupt] leaves [main], with
    only the banner lines printed that came before it. *)
Lemma main_interrupted_early W n :
  sigint_after W = Some n ->
  n < 8 ->
  n < 2 \/ port_in_use W PORT = false ->
  exists p,
    main W (initial W) = (Exc KeyboardInterrupt, p) /\
    stdout p = firstn (n - 2) (banner W) /\
    stderr p = [] /\
    sent p = [] /\
    cwd p = (if (n =? 0)%nat then invocation_cwd W else root W) /\
    bind_calls p = (if (n <? 2)%nat then [] else [("", PORT)]).
Proof.
  intros Hs Hn Hf. unfold main.
  destruct n as [|n]; [interrupted_statement; eexists; repeat split|].
  next_statement.
  destruct n as [|n]; [interrupted_statement; eexists; repeat split|].
  destruct Hf as [Hf|Hf]; [lia|].
  unfold bind at 1. rewrite step_passes by no_signal_now.
  rewrite TCPServer_init_free by exact Hf. process_fields.
  unfold try_finally at 1.
  destruct n as [|n]; [interrupted_statement; eexists; repeat split|].
  next_statement.
  destruct n as [|n]; [interrupted_statement; eexists; repeat split|].
  next_statement.
  destruct n as [|n]; [interrupted_statement; eexists; repeat split|].
  next_statement_getcwd.
  destruct n as [|n]; [interrupted_statement; eexists; repeat split|].
  next_statement.
  destruct n as [|n]; [interrupted_statement; eexists; repeat split|].
  next_statement.
  destruct n as [|n]; [interrupted_statement; eexists; repeat split|].
  lia.
Qed.

(** ** One request, step by step *)

Lemma translate_path_eq W p h :
  translate_path W p h = (Val (file_path W (directory h) p), h).
Proof. reflexivity. Qed.

Ltac handler_fields :=
  cbn [directory client_address rfile wfile printed requestline command path
       request_version headers close_connection _headers_buffer
       set_rfile set_wfile set_printed set_requestline set_command set_path
       set_request_version set_headers set_close_connection set_headers_buffer
       buffered logged fst snd app].

Section OneRequest.

Variable W : world.

Lemma log_message_prints m h : CustomHandler_log_message m h = (Val tt, logged m h).
Proof. reflexivity. Qed.

Lemma send_response_only_buffers code message h :
  (request_version h =? "HTTP/0.9") = false ->
  send_response_only code (Some message) h = (Val tt, buffered (status_line code message) h).
Proof.
  intros Hv. unfold send_response_only, when, bind, gets. now rewrite Hv.
Qed.

Lemma send_response_buffers code message h :
  (request_version h =? "HTTP/0.9") = false ->
  send_response W CustomHandler_log_message code (Some message) h =
  (Val tt,
   buffered (header_line "Date" (date_time_string W))
     (buffered (header_line "Server" (version_string W))
        (buffered (status_line code message)
           (logged (Py.dquote ++ requestline h ++ Py.dquote ++ " " ++ Py.str code ++ " -") h)))).
Proof.
  intros Hv. unfold send_response, log_request.
  erewrite bind_Val; [|erewrite bind_Val by reflexivity; apply log_message_prints].
  erewrite bind_Val; [|apply send_response_only_buffers; exact Hv].
  erewrite bind_Val; [|rewrite send_header_plain by reflexivity; handler_fields; rewrite Hv; reflexivity].
  rewrite send_header_plain by reflexivity. handler_fields. rewrite Hv. reflexivity.
Qed.

(** [send_header('Connection', 'close')] *)
Lemma send_header_connection_close h :
  (request_version h =? "HTTP/0.9") = false ->
  send_header "Connection" "close" h =
  (Val tt, set_close_connection true (buffered (header_line "Connection" "close") h)).
Proof.
  intros Hv. unfold send_header, when, bind, gets, buffer_append, modify, ret.
  rewrite Hv. reflexivity.
Qed.

Lemma send_error_sends code message h p :
  (request_version h =? "HTTP/0.9") = false ->
  path h = Some p ->
  _headers_buffer h = None ->
  has_body code = true ->
  let explain := match responses code with Some (_, long) => long | None => "???" end in
  let page := error_page W code message explain in
  exists h',
    send_error W CustomHandler_end_headers CustomHandler_log_message
      code (Some message) None h = (Val tt, h') /\
    wfile h' =
      (wfile h ++ HeaderBlock (error_block W code message page p)
         :: (if negb (match command h with Some c => c =? "HEAD" | None => false end)
                && negb (page =? "")
             then [Body page] else []))%list /\
    close_connection h' = true.
Proof.
  intros Hv Hp Hb Hc explain page. unfold send_error.
  fold (has_body code). rewrite Hc.
  assert (Hlong : (let '(_, longmsg) :=
                     match responses code with Some sl => sl | None => ("???", "???") end
                   in longmsg) = explain).
  { unfold explain. destruct (responses code) as [[? ?]|]; reflexivity. }
  destruct (match responses code with Some sl => sl | None => ("???", "???") end)
    as [shortmsg longmsg]. cbn in Hlong. subst longmsg. fold page.
  unfold log_error.
  erewrite bind_Val; [|apply log_message_prints].
  erewrite bind_Val; [|apply send_response_buffers; handler_fields; exact Hv].
  erewrite bind_Val; [|apply send_header_connection_close; handler_fields; exact Hv].
  unfold when at 1.
  erewrite bind_Val.
  2:{ erewrite bind_Val;
        [|rewrite send_header_plain by reflexivity; handler_fields; rewrite Hv; reflexivity].
      rewrite send_header_plain by reflexivity. handler_fields. rewrite Hv. reflexivity. }
  erewrite bind_Val;
    [|apply (CustomHandler_end_headers_flushes _ p); handler_fields; assumption].
  erewrite bind_Val by reflexivity.
  handler_fields. rewrite Hb. handler_fields.
  unfold when.
  destruct (negb (match command h with Some c => c =? "HEAD" | None => false end)
            && negb (page =? "")).
  - eexists. split; [reflexivity|]. handler_fields.
    split; [|reflexivity]. rewrite <- app_assoc. reflexivity.
  - eexists. split; [reflexivity|]. handler_fields.
    split; reflexivity.
Qed.

Lemma CustomHandler_init_eq c :
  CustomHandler_init W c =
  handle W CustomHandler_end_headers CustomHandler_log_message (fresh_handler W c).
Proof. reflexivity. Qed.

Lemma parse_request_accepts line cmd p v fresh h :
  parse_request W CustomHandler_end_headers CustomHandler_log_message
    (RequestLine line cmd p v (Headers fresh)) h =
  (Val true, parsed line cmd p v fresh h).
Proof. reflexivity. Qed.

(** [handle] for a connection whose first request line is accepted and
    whose method, once it has run, leaves the connection to be closed:
    nothing more is read. *)
Lemma handle_accepted c line cmd p v fresh more method h' :
  requests c = Line (RequestLine line cmd p v (Headers fresh)) :: more ->
  self_do W CustomHandler_end_headers CustomHandler_log_message cmd = Some method ->
  method (parsed line cmd p v fresh
            (set_rfile more (set_close_connection true (fresh_handler W c)))) = (Val tt, h') ->
  close_connection h' = true ->
  CustomHandler_init W c = (Val tt, h').
Proof.
  intros Hr Hm He Hc. rewrite CustomHandler_init_eq. unfold handle.
  erewrite bind_Val by reflexivity.
  erewrite bind_Val.
  2:{ unfold handle_one_request.
      erewrite bind_Val.
      2:{ unfold readline. cbn [rfile set_close_connection fresh_handler]. rewrite Hr.
          reflexivity. }
      cbv beta iota.
      erewrite bind_Val by apply parse_request_accepts.
      cbv beta iota.
      erewrite bind_Val by reflexivity.
      cbn [command parsed set_headers set_path set_command]. rewrite Hm. exact He. }
  erewrite bind_Val by reflexivity.
  cbn [handle_more]. erewrite bind_Val by reflexivity. rewrite Hc. reflexivity.
Qed.

Lemma send_head_missing h p :
  (request_version h =? "HTTP/0.9") = false ->
  path h = Some p ->
  _headers_buffer h = None ->
  fs W (file_path W (directory h) p) = Absent ->
  let page := error_page W 404 "File not found" "Nothing matches the given URI" in
  exists h',
    send_head W CustomHandler_end_headers CustomHandler_log_message h = (Val None, h') /\
    wfile h' =
      (wfile h ++ HeaderBlock (error_block W 404 "File not found" page p)
         :: (if negb (match command h with Some c => c =? "HEAD" | None => false end)
                && negb (page =? "")
             then [Body page] else []))%list /\
    close_connection h' = true.
Proof.
  intros Hv Hp Hb Habs page.
  destruct (send_error_sends 404 "File not found" h p Hv Hp Hb eq_refl) as (h' & E & Wf & Cc).
  exists h'. split; [|split; assumption].
  unfold send_head.
  erewrite bind_Val; [|unfold self_path; rewrite Hp; reflexivity].
  erewrite bind_Val by apply translate_path_eq.
  rewrite Habs. cbn [isdir]. unfold send_file.
  destruct (Py.endswith _ "/").
  - erewrite bind_Val by exact E. reflexivity.
  - rewrite Habs. erewrite bind_Val by exact E. reflexivity.
Qed.

(** A GET or HEAD for a path that names nothing: the 404 page. *)
Lemma missing_file_response who line cmd p v fresh more :
  cmd = "GET" \/ cmd = "HEAD" ->
  (v =? "HTTP/0.9") = false ->
  fs W (file_path W (root W) p) = Absent ->
  let page := error_page W 404 "File not found" "Nothing matches the given URI" in
  response W {| peer := who;
                requests := Line (RequestLine line cmd p v (Headers fresh)) :: more |} =
  HeaderBlock (error_block W 404 "File not found" page p)
    :: (if negb (cmd =? "HEAD") && negb (page =? "") then [Body page] else []).
Proof.
  intros Hcmd Hv Habs page. unfold response.
  set (c := {| peer := who; requests := _ |}).
  set (h := parsed line cmd p v fresh
              (set_rfile more (set_close_connection true (fresh_handler W c)))).
  destruct (send_head_missing h p Hv eq_refl eq_refl Habs) as (h' & E & Wf & Cc).
  fold page in Wf.
  destruct Hcmd as [-> | ->].
  - erewrite (handle_accepted c line "GET" p v fresh more _ h' eq_refl eq_refl); [|..].
    + cbn [snd]. rewrite Wf. reflexivity.
    + unfold do_GET. fold h. erewrite bind_Val by exact E. reflexivity.
    + exact Cc.
  - erewrite (handle_accepted c line "HEAD" p v fresh more _ h' eq_refl eq_refl); [|..].
    + cbn [snd]. rewrite Wf. reflexivity.
    + unfold do_HEAD. fold h. erewrite bind_Val by exact E. reflexivity.
    + exact Cc.
Qed.

Lemma send_head_found h p data mtime :
  (request_version h =? "HTTP/0.9") = false ->
  path h = Some p ->
  _headers_buffer h = None ->
  headers h = Headers false ->
  fs W (file_path W (directory h) p) = File data mtime ->
  Py.endswith (file_path W (directory h) p) "/" = false ->
  exists h',
    send_head W CustomHandler_end_headers CustomHandler_log_message h = (Val (Some data), h') /\
    wfile h' =
      (wfile h ++ [HeaderBlock (file_block W (file_path W (directory h) p) data mtime p)])%list /\
    close_connection h' = close_connection h.
Proof.
  intros Hv Hp Hb Hh Hfile Hslash.
  unfold send_head.
  erewrite bind_Val; [|unfold self_path; rewrite Hp; reflexivity].
  erewrite bind_Val by apply translate_path_eq.
  rewrite Hfile. cbn [isdir]. unfold send_file. rewrite Hslash, Hfile.
  erewrite bind_Val by reflexivity. rewrite Hh.
  unfold send_response. unfold log_request.
  erewrite bind_Val.
  2:{ erewrite bind_Val; [|erewrite bind_Val by reflexivity; apply log_message_prints].
      erewrite bind_Val.
      2:{ unfold send_response_only, when, bind, gets. handler_fields. rewrite Hv.
          reflexivity. }
      erewrite bind_Val;
        [|rewrite send_header_plain by reflexivity; handler_fields; rewrite Hv; reflexivity].
      rewrite send_header_plain by reflexivity. handler_fields. rewrite Hv. reflexivity. }
  do 3 (erewrite bind_Val;
        [|rewrite send_header_plain by reflexivity; handler_fields; rewrite Hv; reflexivity]).
  erewrite bind_Val;
    [|apply (CustomHandler_end_headers_flushes _ p); handler_fields; assumption].
  eexists. split; [reflexivity|]. handler_fields. rewrite Hb. handler_fields.
  split; reflexivity.
Qed.

(** A GET for a file that is there and not cached by the client. *)
Lemma found_file_response who line p v more data mtime :
  (v =? "HTTP/0.9") = false ->
  fs W (file_path W (root W) p) = File data mtime ->
  Py.endswith (file_path W (root W) p) "/" = false ->
  response W {| peer := who;
                requests := Line (RequestLine line "GET" p v (Headers false)) :: more |} =
  HeaderBlock (file_block W (file_path W (root W) p) data mtime p)
    :: (if negb (data =? "") then [Body data] else []).
Proof.
  intros Hv Hfile Hslash. unfold response.
  set (c := {| peer := who; requests := _ |}).
  set (h := parsed line "GET" p v false
              (set_rfile more (set_close_connection true (fresh_handler W c)))).
  destruct (send_head_found h p data mtime Hv eq_refl eq_refl eq_refl Hfile Hslash)
    as (h' & E & Wf & Cc).
  assert (Run : do_GET W CustomHandler_end_headers CustomHandler_log_message h =
                (Val tt, if negb (data =? "")
                         then set_wfile (wfile h' ++ [Body data])%list h' else h')).
  { unfold do_GET. erewrite bind_Val by exact E. unfold copyfile, when.
    destruct (negb (data =? "")); reflexivity. }
  erewrite (handle_accepted c line "GET" p v false more _ _ eq_refl eq_refl Run).
  - cbn [snd]. destruct (negb (data =? "")); handler_fields; rewrite Wf; reflexivity.
  - destruct (negb (data =? "")); handler_fields; rewrite Cc; reflexivity.
Qed.

End OneRequest.

(** * The claims of the specification *)

(** ** What the process ends up having sent *)

Lemma response_in_order W c : Forall cors_chunk (response W c).
Proof.
  unfold response, CustomHandler_init.
  match goal with
  | |- context [handle W _ _ ?h0] =>
      destruct (respects_CustomHandler W h0) as [[_ (added & E & F)] _]
  end.
  rewrite E. exact F.
Qed.

(** By cases on the port and on Ctrl+C: the clients answered by the end of
    the run are a first part of those that came. *)
Lemma run_answers_a_prefix W :
  exists k, sent (snd (run W)) = map (response W) (firstn k (incoming W)).
Proof.
  unfold run.
  destruct (port_in_use W PORT) eqn:Hport; destruct (sigint_after W) as [n|] eqn:Hs.
  - destruct (Nat.lt_ge_cases n 2) as [Hn|Hn].
    + destruct (main_interrupted_early W n Hs) as (p & E & _ & _ & St & _); [lia|now left|].
      rewrite E. exists 0. exact St.
    + rewrite main_bind_fails;
        [|exact Hport|intros k Ek; rewrite Hs in Ek; now injection Ek as <-].
      now exists 0.
  - rewrite main_bind_fails; [|exact Hport|intros k Ek; congruence].
    now exists 0.
  - destruct (Nat.lt_ge_cases n 8) as [Hn|Hn].
    + destruct (main_interrupted_early W n Hs Hn) as (p & E & _ & _ & St & _); [now right|].
      rewrite E. exists 0. exact St.
    + destruct (main_interrupted W n Hport Hs Hn) as (p & logs & E & _ & _ & _ & St & _).
      rewrite E. exists (n - 9). exact St.
  - destruct (main_serves W Hport Hs) as (p & E & (_ & _ & _ & St & _)).
    rewrite E. exists (length (incoming W)). rewrite firstn_all. exact St.
Qed.


(** ** Content type of JavaScript files *)

Lemma strip_CRLF_append v : strip_CRLF (v ++ Py.CRLF) = v.
Proof.
  induction v as [|c r IH].
  - reflexivity.
  - cbn [append]. unfold strip_CRLF; fold strip_CRLF. rewrite IH.
    destruct (String c (r ++ Py.CRLF) =? Py.CRLF) eqn:E; [|reflexivity].
    apply String.eqb_eq in E. injection E as _ E.
    destruct r as [|c' r']; [discriminate E|].
    cbn [append] in E. injection E as _ E. destruct r'; discriminate E.
Qed.

(** C2 (the code falls short of it).  A GET for a path ending in [.js]
    that names a file is answered with two content-type headers: first the
    one the file-serving facility infers, [Content-type: guess_type(path)],
    then the [Content-Type: text/javascript] that
    [CustomHandler.end_headers] appends.  The inferred type is not
    overridden, and the response has no single content type. *)
Theorem javascript_content_type_is_added_not_replaced
    (W : world) (who line p v : string) (more : list request) (data mtime : string) :
  Py.endswith p ".js" = true ->
  v <> "HTTP/0.9" ->
  fs W (file_path W (root W) p) = File data mtime ->
  Py.endswith (file_path W (root W) p) "/" = false ->
  header_values "Content-Type"
    (first_block
       (response W {| peer := who;
                      requests := Line (RequestLine line "GET" p v (Headers false)) :: more |}))
  = [guess_type W (file_path W (root W) p); "text/javascript"].
Proof.
  intros Hjs Hv Hfile Hslash. apply String.eqb_neq in Hv.
  rewrite (found_file_response W who line p v more data mtime Hv Hfile Hslash).
  cbn [first_block]. unfold file_block. rewrite Hjs.
  transitivity [strip_CRLF (guess_type W (file_path W (root W) p) ++ Py.CRLF);
                strip_CRLF ("text/javascript" ++ Py.CRLF)].
  - reflexivity.
  - now rewrite !strip_CRLF_append.
Qed.

(** The file [app.js] of the concrete world: the facility says
    [application/javascript], the override adds [text/javascript]. *)
Lemma javascript_content_type_twice_for_app_js :
  fs (demo false None []) (file_path (demo false None []) (root (demo false None [])) "/app.js")
    = File "import './main.js';" "Mon, 02 Nov 2026 10:00:00 GMT" /\
  header_values "Content-Type"
    (first_block (response (demo false None []) (browser [GET "/app.js"])))
  = ["application/javascript"; "text/javascript"].
Proof.
  split; [reflexivity|].
  apply (javascript_content_type_is_added_not_replaced
           (demo false None []) "127.0.0.1" "GET /app.js HTTP/1.1" "/app.js" "HTTP/1.1" []
           "import './main.js';" "Mon, 02 Nov 2026 10:00:00 GMT");
    [reflexivity | discriminate | reflexivity | reflexivity].
Defined.

(** ** Start-up failure *)

(** C3. If port 8000 is already bound when the server starts, start-up
    fails for good: the process exits with a status other than 0 (here 1)
    after the interpreter has reported
    [OSError: [Errno 98] Address already in use] on stderr; [bind] was
    called once, with port 8000, so there was neither a second try nor
    another port; the socket is closed and nothing was printed or served.
    (Ctrl+C is assumed not to come before the bind.) *)
Theorem bind_failure_is_fatal (W : world) :
  port_in_use W PORT = true ->
  quiet_until W 2 ->
  fst (run W) = Exited 1 /\
  Exited 1 <> Exited 0 /\
  In ("OSError: [Errno 98] Address already in use" ++ Py.LF) (stderr (snd (run W))) /\
  bind_calls (snd (run W)) = [("", 8000%Z)] /\
  socket (snd (run W)) = Closed /\
  stdout (snd (run W)) = [] /\
  sent (snd (run W)) = [].
Proof.
  intros Hb Hq. unfold run. rewrite (main_bind_fails W Hb Hq).
  cbn [fst snd]. repeat split; try reflexivity.
  - discriminate.
  - right. left. reflexivity.
Qed.

Lemma bind_failure_is_fatal_on_busy_port :
  port_in_use (demo true None []) PORT = true /\
  fst (run (demo true None [])) = Exited 1 /\
  bind_calls (snd (run (demo true None []))) = [("", 8000%Z)].
Proof.
  split; [reflexivity|].
  destruct (bind_failure_is_fatal (demo true None [])) as (E & _ & _ & B & _).
  - reflexivity.
  - intros n Hn. discriminate Hn.
  - split; [exact E | exact B].
Defined.

(** ** Ctrl+C *)

(** C4. When Ctrl+C comes while the server is in its serve loop (after the
    eight start-up steps, the port being free), the server stops accepting
    connections (the listening socket is closed, and only the clients that
    came before the signal have been answered), the last thing on stdout is
    the shutdown notice, and the process exits with status 0. *)
Theorem interrupt_in_serve_loop_exits_0 (W : world) (n : nat) :
  port_in_use W PORT = false ->
  sigint_after W = Some n ->
  8 <= n ->
  fst (run W) = Exited 0 /\
  socket (snd (run W)) = Closed /\
  sent (snd (run W)) = map (response W) (firstn (n - 9) (incoming W)) /\
  exists logs,
    stdout (snd (run W)) = (banner W ++ logs ++ [shutdown_notice])%list.
Proof.
  intros Hf Hs Hn. unfold run.
  destruct (main_interrupted W n Hf Hs Hn) as (p & logs & E & So & _ & _ & St & Out).
  rewrite E. cbn [fst snd]. repeat split; try assumption.
  exists logs. exact Out.
Qed.

Lemma interrupt_in_serve_loop_after_one_client :
  fst (run (demo false (Some 10) [browser [GET "/"]; browser [GET "/app.js"]])) = Exited 0 /\
  socket (snd (run (demo false (Some 10) [browser [GET "/"]; browser [GET "/app.js"]])))
    = Closed /\
  length (sent (snd (run (demo false (Some 10) [browser [GET "/"]; browser [GET "/app.js"]]))))
    = 1.
Proof.
  destruct (interrupt_in_serve_loop_exits_0
              (demo false (Some 10) [browser [GET "/"]; browser [GET "/app.js"]]) 10)
    as (E & S & T & _).
  - reflexivity.
  - reflexivity.
  - lia.
  - split; [exact E|]. split; [exact S|]. rewrite T. reflexivity.
Defined.

(** Ctrl+C before the serve loop is entered. *)

Lemma shutdown_notice_not_in_banner W : ~ In shutdown_notice (banner W).
Proof.
  unfold banner, shutdown_notice, Py.LF. cbn [In append Py.repeat].
  intros [E|[E|[E|[E|[E|[E|[]]]]]]]; discriminate E.
Qed.



(** ** The banner *)




(** ** The root directory *)

Lemma append_assoc (a b c : string) : (a ++ b) ++ c = a ++ (b ++ c).
Proof. induction a as [|x a IH]; cbn; [reflexivity | now rewrite IH]. Qed.

Lemma no_slash_not_absolute w : has_slash w = false -> Py.startswith w "/" = false.
Proof.
  destruct w as [|c r]; [reflexivity|]. intros Hw. unfold Py.startswith.
  change (prefix "/" (String c r)) with (if ascii_dec "/" c then prefix "" r else false).
  destruct (ascii_dec "/" c) as [<-|]; [|reflexivity].
  cbn [has_slash] in Hw. rewrite Ascii.eqb_refl in Hw. discriminate Hw.
Qed.

(** Joining a simple name to a path keeps what the path starts with. *)
Lemma os_path_join_below d x w :
  has_slash w = false -> exists y, os_path_join (d ++ x) w = d ++ y.
Proof.
  intros Hw. unfold os_path_join. rewrite (no_slash_not_absolute w Hw).
  destruct ((d ++ x =? "") || Py.endswith (d ++ x) "/").
  - exists (x ++ w). apply append_assoc.
  - exists (x ++ "/" ++ w). apply append_assoc.
Qed.

Lemma file_path_below W d p : exists rest, file_path W d p = d ++ rest.
Proof.
  unfold file_path.
  set (words := filter _ _). clearbody words.
  assert (Hfold : forall acc, exists y,
            fold_left
              (fun acc word =>
                 if has_slash word || (word =? ".") || (word =? "..") then acc
                 else os_path_join acc word) words (d ++ acc) = d ++ y).
  { induction words as [|w ws IH]; intro acc; cbn [fold_left].
    - now exists acc.
    - destruct (has_slash w) eqn:Hw; cbn [orb]; [apply IH|].
      destruct ((w =? ".") || (w =? "..")); [apply IH|].
      destruct (os_path_join_below d acc w Hw) as [y ->]. apply IH. }
  destruct (Hfold "") as [y Hy].
  replace (d ++ "") with d in Hy by (clear; induction d; cbn; congruence).
  rewrite Hy. destruct (Py.endswith _ "/").
  - exists (y ++ "/"). apply append_assoc.
  - now exists y.
Qed.

Lemma CustomHandler_keeps_directory W c :
  directory (snd (CustomHandler_init W c)) = root W.
Proof.
  unfold CustomHandler_init.
  match goal with
  | |- context [handle W _ _ ?h0] =>
      destruct (respects_CustomHandler W h0) as [[D _] _]
  end.
  exact D.
Qed.



(** ** The configuration *)

Lemma handle_request_keeps_configuration W c p :
  cwd (snd (_handle_request_noblock W c p)) = cwd p /\
  socket (snd (_handle_request_noblock W c p)) = socket p /\
  bind_calls (snd (_handle_request_noblock W c p)) = bind_calls p.
Proof.
  destruct (handle_request_noblock_returns W c p) as (p' & E & _ & (C & S & B & _)).
  rewrite E. auto.
Qed.

Lemma tick_cases W p :
  tick W p = (Val tt, set_steps (S (steps p)) p) \/
  tick W p = (Exc KeyboardInterrupt, set_steps (S (steps p)) p).
Proof.
  unfold tick. destruct (sigint_after W) as [k|]; [|now left].
  destruct (k =? steps p)%nat; [now right | now left].
Qed.

Lemma serve_loop_keeps_configuration W clients :
  forall p,
    cwd (snd (serve_loop W clients p)) = cwd p /\
    socket (snd (serve_loop W clients p)) = socket p /\
    bind_calls (snd (serve_loop W clients p)) = bind_calls p.
Proof.
  induction clients as [|c rest IH]; intro p; cbn [serve_loop].
  - unfold wait_for_signal. destruct (sigint_after W) as [k|]; [|auto].
    destruct (steps p <=? k)%nat; auto.
  - destruct (tick_cases W p) as [T|T].
    + rewrite (bind_Val _ _ _ _ _ T).
      destruct (handle_request_noblock_returns W c (set_steps (S (steps p)) p))
        as (p1 & E & _ & (C & S & B & _)).
      rewrite (bind_Val _ _ _ _ _ E).
      destruct (IH p1) as (C1 & S1 & B1).
      rewrite C1, S1, B1. auto.
    + rewrite (bind_Exc _ _ _ _ _ T). auto.
Qed.

(** C7. The port and the root directory are fixed at start-up and the
    handling of requests never changes them: [PORT] is the constant 8000;
    handling a connection, and running the serve loop over any number of
    connections, leaves the working directory, the listening socket and the
    list of addresses bound as they were; every handler has the script's
    directory as its [directory] from construction to the end; and in a
    whole run [bind] is called at most once, with port 8000. *)
Theorem configuration_is_never_modified (W : world) :
  PORT = 8000%Z /\
  (forall c p,
     cwd (snd (_handle_request_noblock W c p)) = cwd p /\
     socket (snd (_handle_request_noblock W c p)) = socket p /\
     bind_calls (snd (_handle_request_noblock W c p)) = bind_calls p) /\
  (forall clients p,
     cwd (snd (serve_loop W clients p)) = cwd p /\
     socket (snd (serve_loop W clients p)) = socket p /\
     bind_calls (snd (serve_loop W clients p)) = bind_calls p) /\
  (forall c, directory (snd (CustomHandler_init W c)) = fspath (parent (script_file W))) /\
  (bind_calls (snd (run W)) = [] \/ bind_calls (snd (run W)) = [("", 8000%Z)]).
Proof.
  split; [reflexivity|].
  split; [apply handle_request_keeps_configuration|].
  split; [intros; apply serve_loop_keeps_configuration|].
  split; [apply CustomHandler_keeps_directory|].
  unfold run.
  destruct (sigint_after W) as [n|] eqn:Hs.
  - destruct (Nat.lt_ge_cases n 2) as [Hn|Hn].
    + destruct (main_interrupted_early W n Hs) as (p & E & _ & _ & _ & _ & B);
        [lia|now left|].
      rewrite E. cbn. rewrite B. destruct (n <? 2)%nat; auto.
    + destruct (port_in_use W PORT) eqn:Hport.
      * rewrite main_bind_fails;
          [|exact Hport|intros k Ek; rewrite Hs in Ek; now injection Ek as <-].
        now right.
      * destruct (Nat.lt_ge_cases n 8) as [Hn8|Hn8].
        -- destruct (main_interrupted_early W n Hs Hn8) as (p & E & _ & _ & _ & _ & B);
             [now right|].
           rewrite E. cbn. rewrite B. destruct (n <? 2)%nat; auto.
        -- destruct (main_interrupted W n Hport Hs Hn8) as (p & logs & E & _ & _ & B & _).
           rewrite E. now right.
  - destruct (port_in_use W PORT) eqn:Hport.
    + rewrite main_bind_fails; [|exact Hport|intros k Ek; congruence]. now right.
    + destruct (main_serves W Hport Hs) as (p & E & (_ & _ & B & _)).
      rewrite E. now right.
Qed.

Lemma configuration_of_demo_is_kept :
  bind_calls (snd (run (demo false None [browser [GET "/nope"]]))) = [("", 8000%Z)] /\
  directory (snd (CustomHandler_init (demo false None []) (browser [GET "/nope"])))
    = "/home/dev/NeverEverLand/v003".
Proof.
  destruct (configuration_is_never_modified (demo false None [browser [GET "/nope"]]))
    as (_ & _ & _ & _ & [B|B]).
  - discriminate B.
  - split; [exact B|].
    apply (configuration_is_never_modified (demo false None [])).
Defined.

(** ** Missing files *)




(** ** When the JavaScript header is sent *)

Lemma javascript_header_not_in_file_block W at_path data mtime p :
  Py.endswith p ".js" = false ->
  ~ In javascript_header (file_block W at_path data mtime p).
Proof.
  intros Hjs. unfold file_block. rewrite Hjs.
  unfold cors_headers, javascript_header, header_line, status_line, protocol_version, Py.CRLF.
  cbn [app In append].
  intros [E|[E|[E|[E|[E|[E|[E|[E|[E|[E|[]]]]]]]]]]]; discriminate E.
Qed.




(** * Further properties of the code *)

(** ** The whole run, observable by observable *)

Lemma served_exactly_nil W p n : served_exactly W [] p (set_steps n p).
Proof. unfold served_exactly. cbn. now rewrite !app_nil_r. Qed.

Lemma served_exactly_cons W c clients p1 p2 p3 :
  served_exactly W [c] p1 p2 -> served_exactly W clients p2 p3 ->
  served_exactly W (c :: clients) p1 p3.
Proof.
  intros (C1 & S1 & B1 & T1 & O1 & E1) (C2 & S2 & B2 & T2 & O2 & E2).
  unfold served_exactly. cbn [map flat_map] in *. rewrite app_nil_r in O1, E1.
  repeat split; try congruence.
  - rewrite T2, T1. now rewrite <- app_assoc.
  - rewrite O2, O1. now rewrite <- app_assoc.
  - rewrite E2, E1. now rewrite <- app_assoc.
Qed.

Lemma handle_request_noblock_exactly W c p :
  exists p', _handle_request_noblock W c p = (Val tt, p') /\
             steps p' = steps p /\ served_exactly W [c] p p'.
Proof.
  assert (R : returns_or_fails (fst (CustomHandler_init W c)))
    by exact (proj2 (respects_CustomHandler W _)).
  assert (E1 : response W c = wfile (snd (CustomHandler_init W c))) by reflexivity.
  assert (E2 : log_of W c = printed (snd (CustomHandler_init W c))) by reflexivity.
  assert (E3 : crash_report W c =
               match fst (CustomHandler_init W c) with
               | Exc e =>
                   [ Py.repeat "-" 40 ++ Py.LF;
                     ("Exception occurred during processing of request from " ++ peer c)
                       ++ Py.LF;
                     format_exception_only e ++ Py.LF;
                     Py.repeat "-" 40 ++ Py.LF ]
               | _ => []
               end) by reflexivity.
  unfold served_exactly. cbn [map flat_map]. rewrite !app_nil_r, E1, E2, E3.
  clear E1 E2 E3.
  unfold _handle_request_noblock, try_except, process_request, bind, finish_request,
    shutdown_request, ret.
  destruct (CustomHandler_init W c) as [[[]|e|] h]; cbn [fst snd] in *.
  - eexists. split; [reflexivity|].
    cbn [steps cwd socket bind_calls sent stdout stderr set_stderr set_sent set_stdout].
    rewrite !app_nil_r. repeat split.
  - rewrite R. unfold handle_error, bind, eprint, modify, raise.
    eexists. split; [reflexivity|].
    cbn [steps cwd socket bind_calls sent stdout stderr set_stderr set_sent set_stdout].
    repeat rewrite <- app_assoc. repeat split.
  - contradiction.
Qed.

Lemma serve_loop_blocks_exactly W :
  sigint_after W = None ->
  forall clients p,
  exists p', serve_loop W clients p = (Blocked, p') /\ served_exactly W clients p p'.
Proof.
  intros Hs. induction clients as [|c rest IH]; intro p; cbn [serve_loop].
  - exists p. unfold wait_for_signal. rewrite Hs. split; [reflexivity|].
    unfold served_exactly. cbn. now rewrite !app_nil_r.
  - erewrite bind_Val; [|apply tick_passes; intros n E; congruence].
    destruct (handle_request_noblock_exactly W c (set_steps (S (steps p)) p))
      as (p1 & E1 & _ & S1).
    erewrite bind_Val; [|exact E1].
    destruct (IH p1) as (p2 & E2 & S2).
    exists p2. split; [exact E2|].
    eapply served_exactly_cons; [|exact S2]. exact S1.
Qed.

Lemma serve_loop_interrupted_exactly W n :
  sigint_after W = Some n ->
  forall clients p,
  steps p <= n ->
  exists p', serve_loop W clients p = (Exc KeyboardInterrupt, p') /\
             served_exactly W (firstn (n - steps p) clients) p p'.
Proof.
  intros Hs. induction clients as [|c rest IH]; intros p Hp; cbn [serve_loop].
  - exists p. unfold wait_for_signal. rewrite Hs.
    destruct (Nat.leb_spec (steps p) n); [|lia].
    split; [reflexivity|]. rewrite firstn_nil.
    unfold served_exactly. cbn. now rewrite !app_nil_r.
  - destruct (Nat.eq_dec n (steps p)) as [E|NE].
    + erewrite bind_Exc; [|apply tick_fires; congruence].
      eexists. split; [reflexivity|].
      replace (n - steps p) with 0 by lia. apply served_exactly_nil.
    + erewrite bind_Val; [|apply tick_passes; intros k Ek; congruence].
      destruct (handle_request_noblock_exactly W c (set_steps (S (steps p)) p))
        as (p1 & E1 & St1 & S1).
      erewrite bind_Val; [|exact E1].
      destruct (IH p1) as (p2 & E2 & S2); [rewrite St1; cbn; lia|].
      exists p2. split; [exact E2|].
      replace (n - steps p) with (S (n - steps p1)) by (rewrite St1; cbn; lia).
      cbn [firstn]. eapply served_exactly_cons; [|exact S2]. exact S1.
Qed.

Lemma run_with_busy_port W :
  port_in_use W PORT = true ->
  quiet_until W 2 ->
  outcome_is W (Exited 1) Closed [("", PORT)] []
    (traceback_of (OSError 98 "Address already in use")).
Proof.
  intros Hb Hq.
  constructor; unfold run, answered; rewrite (main_bind_fails W Hb Hq), ?Hb; reflexivity.
Qed.

Lemma run_without_signal W :
  port_in_use W PORT = false ->
  sigint_after W = None ->
  outcome_is W Running (Listening "" PORT) [("", PORT)]
    (banner W ++ flat_map (log_of W) (incoming W))
    (flat_map (crash_report W) (incoming W)).
Proof.
  intros Hf Hs.
  assert (Hrun : exists p, run W = (Running, p) /\
                           served_exactly W (incoming W) (listening W) p).
  { unfold run.
    rewrite main_enters_serve_loop; [|exact Hf|intros n E; congruence].
    unfold try_finally, try_except.
    rewrite step_passes by no_signal_now.
    destruct (serve_loop_blocks_exactly W Hs (incoming W)
                (set_steps (S (steps (listening W))) (listening W)))
      as (p & E & Sv).
    unfold serve_forever. rewrite E. exists p. split; [reflexivity | exact Sv]. }
  destruct Hrun as (p & Hrun & (C & S & B & T & O & Er)).
  constructor; rewrite Hrun; cbn [fst snd]; try assumption; try reflexivity.
  unfold answered. rewrite Hf, Hs. exact T.
Qed.

Lemma run_interrupted_in_loop W n :
  port_in_use W PORT = false ->
  sigint_after W = Some n ->
  8 <= n ->
  outcome_is W (Exited 0) Closed [("", PORT)]
    (banner W ++ flat_map (log_of W) (firstn (n - 9) (incoming W)) ++ [shutdown_notice])
    (flat_map (crash_report W) (firstn (n - 9) (incoming W))).
Proof.
  intros Hf Hs Hn.
  assert (Hrun : exists p,
            served_exactly W (firstn (n - 9) (incoming W)) (listening W) p /\
            run W = (Exited 0,
                     set_socket Closed
                       (set_stdout (stdout p ++ [shutdown_notice])%list p))).
  { unfold run.
    rewrite main_enters_serve_loop;
      [|exact Hf|intros k E; rewrite Hs in E; injection E as <-; exact Hn].
    unfold try_finally, try_except.
    destruct (Nat.eq_dec n 8) as [->|Hne].
    - rewrite step_fires by exact Hs. cbn [is_KeyboardInterrupt].
      exists (set_steps 9 (listening W)). split; [apply served_exactly_nil | reflexivity].
    - rewrite step_passes by (unfold listening; no_signal_now).
      destruct (serve_loop_interrupted_exactly W n Hs (incoming W)
                  (set_steps (S (steps (listening W))) (listening W)))
        as (p & E & Sv); [cbn; lia|].
      unfold serve_forever. rewrite E. cbn [is_KeyboardInterrupt].
      exists p. split; [exact Sv | reflexivity]. }
  destruct Hrun as (p & (C & S & B & T & O & Er) & Hrun).
  unfold listening in C, S, B, T, O, Er.
  cbn [cwd socket bind_calls stdout stderr steps sent set_steps app] in C, S, B, T, O, Er.
  constructor; rewrite Hrun; cbn [fst snd]; process_fields; try assumption; try reflexivity.
  - unfold answered. rewrite Hf, Hs. exact T.
  - rewrite O. now rewrite <- app_assoc.
Qed.

Lemma main_interrupted_early_socket W n :
  sigint_after W = Some n ->
  n < 8 ->
  n < 2 \/ port_in_use W PORT = false ->
  exists p,
    main W (initial W) = (Exc KeyboardInterrupt, p) /\
    socket p = (if (n <? 2)%nat then NoSocket else Closed).
Proof.
  intros Hs Hn Hf. unfold main.
  destruct n as [|n]; [interrupted_statement; eexists; repeat split|].
  next_statement.
  destruct n as [|n]; [interrupted_statement; eexists; repeat split|].
  destruct Hf as [Hf|Hf]; [lia|].
  unfold bind at 1. rewrite step_passes by no_signal_now.
  rewrite TCPServer_init_free by exact Hf. process_fields.
  unfold try_finally at 1.
  destruct n as [|n]; [interrupted_statement; eexists; repeat split|].
  next_statement.
  destruct n as [|n]; [interrupted_statement; eexists; repeat split|].
  next_statement.
  destruct n as [|n]; [interrupted_statement; eexists; repeat split|].
  next_statement_getcwd.
  destruct n as [|n]; [interrupted_statement; eexists; repeat split|].
  next_statement.
  destruct n as [|n]; [interrupted_statement; eexists; repeat split|].
  next_statement.
  destruct n as [|n]; [interrupted_statement; eexists; repeat split|].
  lia.
Qed.

Lemma run_interrupted_early W n :
  sigint_after W = Some n ->
  n < 8 ->
  n < 2 \/ port_in_use W PORT = false ->
  outcome_is W (Exited 130)
    (if (n <? 2)%nat then NoSocket else Closed)
    (if (n <? 2)%nat then [] else [("", PORT)])
    (firstn (n - 2) (banner W))
    (traceback_of KeyboardInterrupt).
Proof.
  intros Hs Hn Hf.
  destruct (main_interrupted_early W n Hs Hn Hf) as (p & E & Out & Err & St & _ & B).
  destruct (main_interrupted_early_socket W n Hs Hn Hf) as (p' & E' & So).
  rewrite E in E'. injection E' as <-.
  assert (Ha : answered W = []).
  { unfold answered. destruct (port_in_use W PORT); [reflexivity|].
    rewrite Hs. replace (n - 9) with 0 by lia. reflexivity. }
  constructor; unfold run; rewrite E; cbn [fst snd]; unfold traceback, bind, eprint, modify;
    process_fields; rewrite ?Ha; try assumption; try reflexivity.
  rewrite Err. reflexivity.
Qed.

Lemma run_cases W : run_case W.
Proof.
  destruct (sigint_after W) as [n|] eqn:Hs.
  - destruct (Nat.lt_ge_cases n 2) as [Hn|Hn].
    + apply (early W n Hs); [lia | now left].
    + destruct (port_in_use W PORT) eqn:Hport.
      * apply busy; [exact Hport|]. intros k Ek. rewrite Hs in Ek. now injection Ek as <-.
      * destruct (Nat.lt_ge_cases n 8) as [Hn8|Hn8].
        -- apply (early W n Hs Hn8). now right.
        -- now apply (stopped W n).
  - destruct (port_in_use W PORT) eqn:Hport.
    + apply busy; [exact Hport|]. intros k Ek. congruence.
    + now apply serving.
Qed.

(** Decide the tests on [n] that the statements below branch on. *)
Ltac decide_tests :=
  repeat match goal with
  | |- context [(?a <? ?b)%nat] =>
      first [ replace (a <? b)%nat with true by (symmetry; apply Nat.ltb_lt; lia)
            | replace (a <? b)%nat with false by (symmetry; apply Nat.ltb_ge; lia) ]
  end;
  repeat match goal with
  | |- context [if (?a <? ?b)%nat then _ else _] => destruct (a <? b)%nat
  end.

(** X1. How the process ends depends on the port and on Ctrl+C alone,
    never on the requests: with the port free and no Ctrl+C it serves for
    ever; Ctrl+C in the serve loop gives status 0, Ctrl+C before it 130;
    a port that is taken gives 1 (unless Ctrl+C comes before the bind). *)
Theorem exit_status_of_run (W : world) :
  fst (run W) =
  match sigint_after W with
  | None => if port_in_use W PORT then Exited 1 else Running
  | Some n =>
      if (n <? 2)%nat then Exited 130
      else if port_in_use W PORT then Exited 1
      else if (n <? 8)%nat then Exited 130
      else Exited 0
  end.
Proof.
  destruct (run_cases W) as [n Hs Hn Hf|Hb Hq|Hf Hs|n Hf Hs Hn].
  - rewrite (run_termination _ _ _ _ _ _ (run_interrupted_early W n Hs Hn Hf)), Hs.
    destruct Hf as [Hf|Hf]; [|rewrite Hf]; decide_tests; reflexivity.
  - rewrite (run_termination _ _ _ _ _ _ (run_with_busy_port W Hb Hq)), Hb.
    destruct (sigint_after W) as [n|] eqn:Hs; [|reflexivity].
    specialize (Hq n Hs). decide_tests. reflexivity.
  - rewrite (run_termination _ _ _ _ _ _ (run_without_signal W Hf Hs)), Hs, Hf. reflexivity.
  - rewrite (run_termination _ _ _ _ _ _ (run_interrupted_in_loop W n Hf Hs Hn)), Hs, Hf.
    decide_tests. reflexivity.
Qed.

(** X2. The listening socket is open exactly while the server serves.
    Once the server object has been built, every way out of [main] closes
    it: the [with] block on Ctrl+C, before or in the serve loop, and
    [TCPServer]'s own clean-up when the bind fails.  (Ctrl+C before the
    server is built leaves no socket at all.) *)
Theorem listening_socket_at_the_end (W : world) :
  socket (snd (run W)) =
  match sigint_after W with
  | None => if port_in_use W PORT then Closed else Listening "" 8000
  | Some n => if (n <? 2)%nat then NoSocket else Closed
  end.
Proof.
  destruct (run_cases W) as [n Hs Hn Hf|Hb Hq|Hf Hs|n Hf Hs Hn].
  - rewrite (run_socket _ _ _ _ _ _ (run_interrupted_early W n Hs Hn Hf)), Hs. reflexivity.
  - rewrite (run_socket _ _ _ _ _ _ (run_with_busy_port W Hb Hq)), Hb.
    destruct (sigint_after W) as [n|] eqn:Hs; [|reflexivity].
    specialize (Hq n Hs). decide_tests. reflexivity.
  - rewrite (run_socket _ _ _ _ _ _ (run_without_signal W Hf Hs)), Hs, Hf. reflexivity.
  - rewrite (run_socket _ _ _ _ _ _ (run_interrupted_in_loop W n Hf Hs Hn)), Hs.
    decide_tests. reflexivity.
Qed.





(** ** Logging, and one request per connection *)

Lemma tidy_step_refl h : tidy_step h h.
Proof.
  split; [reflexivity|]. split; [reflexivity|]. split; [auto|].
  exists []. split; [now rewrite app_nil_r | constructor].
Qed.

Lemma tidy_step_trans h1 h2 h3 : tidy_step h1 h2 -> tidy_step h2 h3 -> tidy_step h1 h3.
Proof.
  intros (A1 & R1 & C1 & a1 & P1 & F1) (A2 & R2 & C2 & a2 & P2 & F2).
  split; [congruence|]. split; [congruence|]. split; [auto|].
  exists (a1 ++ a2)%list. split.
  - rewrite P2, P1. now rewrite app_assoc.
  - apply Forall_app. split; [exact F1|]. now rewrite <- A1.
Qed.

Lemma tidy_ret {A} (a : A) : tidy (ret a).
Proof. intro h. apply tidy_step_refl. Qed.

Lemma tidy_bind {A B} (m : H A) (k : A -> H B) :
  tidy m -> (forall a, tidy (k a)) -> tidy (bind m k).
Proof.
  intros Hm Hk h. unfold bind. specialize (Hm h).
  destruct (m h) as [[a|e|] h1]; cbn [snd] in *; try assumption.
  eapply tidy_step_trans; [exact Hm | apply Hk].
Qed.

Lemma tidy_gets {A} (f : handler -> A) : tidy (gets f).
Proof. intro h. apply tidy_step_refl. Qed.

Lemma tidy_raise {A} (e : exn) : tidy (@raise handler A e).
Proof. intro h. apply tidy_step_refl. Qed.

Lemma tidy_modify (f : handler -> handler) :
  (forall h, client_address (f h) = client_address h /\
             rfile (f h) = rfile h /\
             printed (f h) = printed h /\
             (close_connection (f h) = close_connection h \/ close_connection (f h) = true)) ->
  tidy (modify f).
Proof.
  intros Hf h. cbn. destruct (Hf h) as (A & R & Pr & C).
  split; [exact A|]. split; [exact R|]. split.
  - intro Hc. destruct C as [C|C]; congruence.
  - exists []. split; [now rewrite app_nil_r | constructor].
Qed.

Lemma tidy_when (b : bool) (m : H unit) : tidy m -> tidy (when b m).
Proof. intro Hm. destruct b; [exact Hm | apply tidy_ret]. Qed.

Lemma tidy_self_path : tidy self_path.
Proof. intro h. unfold self_path. destruct (path h); apply tidy_step_refl. Qed.

Ltac tidy_step_tac :=
  lazymatch goal with
  | |- tidy (bind _ _) => apply tidy_bind; [|intro]
  | |- tidy (ret _) => apply tidy_ret
  | |- tidy (gets _) => apply tidy_gets
  | |- tidy (when _ _) => apply tidy_when
  | |- tidy (raise _) => apply tidy_raise
  | |- tidy self_path => apply tidy_self_path
  | |- tidy (write _) => unfold write
  | |- tidy (modify _) =>
      apply tidy_modify; intro;
      split; [reflexivity|]; split; [reflexivity|]; split; [reflexivity|];
      first [left; reflexivity | right; reflexivity]
  | |- tidy (if ?b then _ else _) => destruct b
  | |- tidy (match ?x with _ => _ end) => destruct x
  | |- tidy (let '(_, _) := ?x in _) => destruct x
  | |- _ => solve [auto with tidy]
  end.

Ltac tidy_auto := repeat tidy_step_tac.

Create HintDb tidy.

Lemma tidy_buffer_append line : tidy (buffer_append line).
Proof. unfold buffer_append. tidy_auto. Qed.

Lemma tidy_send_response_only code message : tidy (send_response_only code message).
Proof. pose proof tidy_buffer_append. unfold send_response_only. tidy_auto. Qed.

(** [send_header] reopens nothing unless it is told [Connection: keep-alive]. *)
Lemma tidy_send_header keyword value :
  (Py.lower keyword =? "connection") && (Py.lower value =? "keep-alive") = false ->
  tidy (send_header keyword value).
Proof.
  intros Hk. pose proof tidy_buffer_append. unfold send_header.
  apply tidy_bind; [apply tidy_gets|]. intro v.
  apply tidy_bind; [tidy_auto|]. intros _.
  destruct (Py.lower keyword =? "connection"); cbn [when andb] in *; [|apply tidy_ret].
  rewrite Hk. tidy_auto.
Qed.

Lemma tidy_end_headers : tidy end_headers.
Proof. unfold end_headers, flush_headers. tidy_auto. Qed.

Lemma tidy_CustomHandler_end_headers : tidy CustomHandler_end_headers.
Proof.
  unfold CustomHandler_end_headers.
  repeat (apply tidy_bind; [apply tidy_send_header; reflexivity | intros _]).
  apply tidy_bind; [apply tidy_self_path | intro p].
  apply tidy_bind; [|intros _; apply tidy_end_headers].
  apply tidy_when. apply tidy_send_header. reflexivity.
Qed.

Lemma tidy_CustomHandler_log_message m : tidy (CustomHandler_log_message m).
Proof.
  intro h. cbn. split; [reflexivity|]. split; [reflexivity|]. split; [auto|].
  eexists. split; [reflexivity|]. constructor; [|constructor]. now exists m.
Qed.

#[local] Hint Resolve tidy_buffer_append tidy_send_response_only
  tidy_CustomHandler_end_headers tidy_CustomHandler_log_message : tidy.

Section TidyHandler.

Variable W : world.

Lemma tidy_send_response code message : tidy (send_response W CustomHandler_log_message code message).
Proof.
  unfold send_response, log_request.
  apply tidy_bind; [tidy_auto|]. intros _.
  apply tidy_bind; [tidy_auto|]. intros _.
  apply tidy_bind; [apply tidy_send_header; reflexivity | intros _].
  apply tidy_send_header; reflexivity.
Qed.

Local Hint Resolve tidy_send_response : tidy.

Lemma tidy_send_error code message explain : tidy (send_error W CustomHandler_end_headers CustomHandler_log_message code message explain).
Proof.
  unfold send_error, log_error.
  destruct (match responses code with Some sl => sl | None => ("???", "???") end).
  apply tidy_bind; [tidy_auto|]. intros _.
  apply tidy_bind; [tidy_auto|]. intros _.
  apply tidy_bind; [apply tidy_send_header; reflexivity | intros _].
  apply tidy_bind.
  { apply tidy_when. apply tidy_bind; [|intros _]; apply tidy_send_header; reflexivity. }
  intros _. tidy_auto.
Qed.

Local Hint Resolve tidy_send_error : tidy.

Lemma tidy_translate_path p : tidy (translate_path W p).
Proof. unfold translate_path. tidy_auto. Qed.

Local Hint Resolve tidy_translate_path : tidy.

Lemma tidy_send_file path : tidy (send_file W CustomHandler_end_headers CustomHandler_log_message path).
Proof.
  unfold send_file.
  destruct (Py.endswith path "/"); [tidy_auto|].
  destruct (fs W path); try solve [tidy_auto].
  apply tidy_bind; [apply tidy_gets|]. intros [m e|[|]].
  - apply tidy_bind; [tidy_auto|]. intros _.
    do 3 (apply tidy_bind; [apply tidy_send_header; reflexivity | intros _]).
    tidy_auto.
  - tidy_auto.
  - apply tidy_bind; [tidy_auto|]. intros _.
    do 3 (apply tidy_bind; [apply tidy_send_header; reflexivity | intros _]).
    tidy_auto.
Qed.

Lemma tidy_list_directory path : tidy (list_directory W CustomHandler_end_headers CustomHandler_log_message path).
Proof.
  unfold list_directory.
  destruct (fs W path) as [| | |[|]]; try solve [tidy_auto].
  apply tidy_bind; [apply tidy_self_path | intro p].
  apply tidy_bind; [tidy_auto|]. intros _.
  do 2 (apply tidy_bind; [apply tidy_send_header; reflexivity | intros _]).
  tidy_auto.
Qed.

Local Hint Resolve tidy_send_file tidy_list_directory : tidy.

Lemma tidy_send_head : tidy (send_head W CustomHandler_end_headers CustomHandler_log_message).
Proof.
  unfold send_head.
  apply tidy_bind; [apply tidy_self_path | intro p].
  apply tidy_bind; [tidy_auto | intro q].
  destruct (isdir (fs W q)); [|tidy_auto].
  destruct (negb (Py.endswith (urlsplit_path W p) "/")); [|tidy_auto].
  apply tidy_bind; [tidy_auto|]. intros _.
  do 2 (apply tidy_bind; [apply tidy_send_header; reflexivity | intros _]).
  tidy_auto.
Qed.

Local Hint Resolve tidy_send_head : tidy.

Lemma tidy_self_do c m : self_do W CustomHandler_end_headers CustomHandler_log_message c = Some m -> tidy m.
Proof.
  unfold self_do.
  destruct (c =? "GET").
  - intros [= <-]. unfold do_GET, copyfile. tidy_auto.
  - destruct (c =? "HEAD"); [|discriminate].
    intros [= <-]. unfold do_HEAD. tidy_auto.
Qed.

Lemma tidy_parse_request r : tidy (parse_request W CustomHandler_end_headers CustomHandler_log_message r).
Proof. unfold parse_request. tidy_auto. Qed.

(** What [handle_one_request] does with the request line it has read. *)
Lemma tidy_after_readline (k : option request -> H unit) h :
  (forall raw, tidy (k raw)) ->
  tidy_step (set_rfile (tl (rfile h)) h) (snd (bind readline k h)).
Proof.
  intros Hk. unfold bind, readline.
  destruct (rfile h) as [|r rest] eqn:Hr; cbn [snd tl].
  - destruct (Hk None h) as (A & R & C & Pr).
    split; [exact A|]. split; [now rewrite R, Hr|]. split; [exact C | exact Pr].
  - apply Hk.
Qed.

Lemma handle_one_request_reads_one h :
  close_connection h = true ->
  close_connection
    (snd (handle_one_request W CustomHandler_end_headers CustomHandler_log_message h)) = true /\
  rfile (snd (handle_one_request W CustomHandler_end_headers CustomHandler_log_message h))
    = tl (rfile h) /\
  client_address
    (snd (handle_one_request W CustomHandler_end_headers CustomHandler_log_message h))
    = client_address h /\
  exists added,
    printed (snd (handle_one_request W CustomHandler_end_headers CustomHandler_log_message h))
      = (printed h ++ added)%list /\
    Forall (log_line (client_address h)) added.
Proof.
  intros Hc. unfold handle_one_request.
  match goal with
  | |- context [bind readline ?k h] =>
      assert (Hk : forall raw, tidy (k raw));
      [| destruct (tidy_after_readline k h Hk) as (A & R & C & Pr) ]
  end.
  { intros [[|r]|].
    - pose proof tidy_send_error. tidy_auto.
    - apply tidy_bind; [apply tidy_parse_request|]. intros [|]; [|apply tidy_ret].
      apply tidy_bind; [apply tidy_gets|]. intro c.
      destruct (self_do W CustomHandler_end_headers CustomHandler_log_message _) eqn:E.
      + eapply tidy_self_do; exact E.
      + apply tidy_send_error.
    - tidy_auto. }
  cbn [client_address rfile close_connection printed set_rfile] in A, R, C, Pr.
  auto.
Qed.

(** Once the first request of a connection has been handled the connection
    is to be closed, so [handle] stops there: a handler is one call of
    [handle_one_request]. *)
Lemma handle_is_one_request c :
  CustomHandler_init W c =
  handle_one_request W CustomHandler_end_headers CustomHandler_log_message (set_close_connection true (fresh_handler W c)).
Proof.
  rewrite CustomHandler_init_eq. unfold handle.
  erewrite bind_Val by reflexivity.
  destruct (handle_one_request_reads_one (set_close_connection true (fresh_handler W c)))
    as (Hc & _); [reflexivity|].
  unfold bind at 1.
  destruct (handle_one_request W CustomHandler_end_headers CustomHandler_log_message _) as [[[]|e|] h1]; cbn [snd] in Hc; try reflexivity.
  erewrite bind_Val by reflexivity. cbn [handle_more].
  erewrite bind_Val by reflexivity. now rewrite Hc.
Qed.

End TidyHandler.


(** X6. A handler reads one request and no more: whatever the first
    request of a connection is, and however it is answered, the connection
    is then to be closed and the requests behind it are still unread when
    the handler is done (there is no keep-alive). *)
Theorem only_the_first_request_is_read (W : world) (who : string) (r : request)
    (more : list request) :
  rfile (snd (CustomHandler_init W {| peer := who; requests := r :: more |})) = more /\
  close_connection (snd (CustomHandler_init W {| peer := who; requests := r :: more |}))
    = true.
Proof.
  rewrite handle_is_one_request.
  destruct (handle_one_request_reads_one W
              (set_close_connection true
                 (fresh_handler W {| peer := who; requests := r :: more |})))
    as (C & R & _); [reflexivity|].
  split; [exact R | exact C].
Qed.

(** X7. Everything a handler prints is a log line of [log_message]: the
    client's address in square brackets, a space, the message and a line
    feed, on stdout.  This holds for every connection, also when the
    handler raises. *)
Theorem every_log_line_names_the_client (W : world) (c : connection) :
  Forall (fun l => exists m, l = ("[" ++ peer c ++ "] " ++ m) ++ Py.LF) (log_of W c).
Proof.
  unfold log_of. rewrite handle_is_one_request.
  destruct (handle_one_request_reads_one W (set_close_connection true (fresh_handler W c)))
    as (_ & _ & _ & added & Pr & F); [reflexivity|].
  rewrite Pr. exact F.
Qed.

(** ** Which requests are answered, and with what *)

Lemma chunk_fits_same h1 h2 c :
  request_version h2 = request_version h1 -> command h2 = command h1 ->
  chunk_fits h2 c -> chunk_fits h1 c.
Proof. intros V C. destruct c; cbn; congruence. Qed.

Lemma steady_step_refl h : steady_step h h.
Proof.
  repeat (split; [reflexivity|]). exists []. split; [now rewrite app_nil_r | constructor].
Qed.

Lemma steady_step_trans h1 h2 h3 :
  steady_step h1 h2 -> steady_step h2 h3 -> steady_step h1 h3.
Proof.
  intros (P1 & V1 & C1 & a1 & W1 & F1) (P2 & V2 & C2 & a2 & W2 & F2).
  split; [congruence|]. split; [congruence|]. split; [congruence|].
  exists (a1 ++ a2)%list. split.
  - rewrite W2, W1. now rewrite app_assoc.
  - apply Forall_app. split; [exact F1|].
    eapply Forall_impl; [|exact F2]. intros c. now apply chunk_fits_same.
Qed.

Lemma steady_ret {A} (a : A) : steady (ret a).
Proof. intro h. split; [apply steady_step_refl | intros _; now exists a]. Qed.

Lemma steady_bind {A B} (m : H A) (k : A -> H B) :
  steady m -> (forall a, steady (k a)) -> steady (bind m k).
Proof.
  intros Hm Hk h. unfold bind. destruct (Hm h) as [S1 R1].
  destruct (m h) as [[a|e|] h1]; cbn [fst snd] in *.
  - destruct (Hk a h1) as [S2 R2]. split.
    + eapply steady_step_trans; eassumption.
    + intro Hp. apply R2. destruct S1 as (P1 & _). congruence.
  - split; [exact S1|]. intro Hp. destruct (R1 Hp) as [a Ha]. discriminate Ha.
  - split; [exact S1|]. intro Hp. destruct (R1 Hp) as [a Ha]. discriminate Ha.
Qed.

Lemma steady_gets {A} (f : handler -> A) : steady (gets f).
Proof. intro h. split; [apply steady_step_refl | intros _; now eexists]. Qed.

Lemma steady_modify (f : handler -> handler) :
  (forall h, path (f h) = path h /\ request_version (f h) = request_version h /\
             command (f h) = command h /\ wfile (f h) = wfile h) ->
  steady (modify f).
Proof.
  intros Hf h. cbn. destruct (Hf h) as (P & V & C & Wf). split; [|intros _; now eexists].
  repeat (split; [assumption|]). exists []. split; [now rewrite app_nil_r | constructor].
Qed.

Lemma steady_when (b : bool) (m : H unit) : steady m -> steady (when b m).
Proof. intro Hm. destruct b; [exact Hm | apply steady_ret]. Qed.

Lemma steady_self_path : steady self_path.
Proof.
  intro h. unfold self_path. destruct (path h) as [p|]; cbn [fst snd].
  - split; [apply steady_step_refl | intros _; now eexists].
  - split; [apply steady_step_refl | intro Hp; now elim Hp].
Qed.

Lemma buffers_steady {A} (m : H A) : buffers m -> steady m.
Proof.
  intros Hm h. destruct (Hm h) as (a & h' & E & P & V & C & Wf). rewrite E. cbn [fst snd].
  split; [|intros _; now exists a].
  repeat (split; [assumption|]). exists []. split; [now rewrite app_nil_r | constructor].
Qed.

Lemma buffers_bind {A B} (m : H A) (k : A -> H B) :
  buffers m -> (forall a, buffers (k a)) -> buffers (bind m k).
Proof.
  intros Hm Hk h. destruct (Hm h) as (a & h1 & E1 & P1 & V1 & C1 & W1).
  destruct (Hk a h1) as (b & h2 & E2 & P2 & V2 & C2 & W2).
  exists b, h2. rewrite (bind_Val _ _ _ _ _ E1).
  repeat split; congruence.
Qed.

Lemma buffers_ret {A} (a : A) : buffers (@ret handler A a).
Proof. intro h. exists a, h. repeat split. Qed.

Lemma buffers_gets {A} (f : handler -> A) : buffers (gets f).
Proof. intro h. exists (f h), h. repeat split. Qed.

Lemma buffers_modify (f : handler -> handler) :
  (forall h, path (f h) = path h /\ request_version (f h) = request_version h /\
             command (f h) = command h /\ wfile (f h) = wfile h) ->
  buffers (modify f).
Proof. intros Hf h. exists tt, (f h). split; [reflexivity | apply Hf]. Qed.

Lemma buffers_when (b : bool) (m : H unit) : buffers m -> buffers (when b m).
Proof. intro Hm. destruct b; [exact Hm | apply buffers_ret]. Qed.

Ltac buffers_step :=
  lazymatch goal with
  | |- buffers (bind _ _) => apply buffers_bind; [|intro]
  | |- buffers (ret _) => apply buffers_ret
  | |- buffers (gets _) => apply buffers_gets
  | |- buffers (when _ _) => apply buffers_when
  | |- buffers (modify _) => apply buffers_modify; intro; repeat split
  | |- buffers (if ?b then _ else _) => destruct b
  | |- buffers (match ?x with _ => _ end) => destruct x
  | |- _ => solve [auto with buffers]
  end.

Ltac buffers_auto := repeat buffers_step.

Create HintDb buffers.

Lemma buffers_buffer_append line : buffers (buffer_append line).
Proof. unfold buffer_append. buffers_auto. Qed.

#[local] Hint Resolve buffers_buffer_append : buffers.

Lemma buffers_send_response_only code message : buffers (send_response_only code message).
Proof. unfold send_response_only. buffers_auto. Qed.

Lemma buffers_send_header keyword value : buffers (send_header keyword value).
Proof. unfold send_header. buffers_auto. Qed.

Lemma buffers_CustomHandler_log_message m : buffers (CustomHandler_log_message m).
Proof. unfold CustomHandler_log_message, handler_print. buffers_auto. Qed.

#[local] Hint Resolve buffers_send_response_only buffers_send_header
  buffers_CustomHandler_log_message : buffers.

Lemma buffers_send_response W code message :
  buffers (send_response W CustomHandler_log_message code message).
Proof. unfold send_response, log_request. buffers_auto. Qed.

#[local] Hint Resolve buffers_send_response : buffers.

Lemma CustomHandler_end_headers_without_path h :
  path h = None ->
  exists h',
    CustomHandler_end_headers h = (Exc (AttributeError "path"), h') /\
    path h' = path h /\ request_version h' = request_version h /\
    command h' = command h /\ wfile h' = wfile h.
Proof.
  intros Hp. unfold CustomHandler_end_headers.
  destruct (buffers_send_header "Access-Control-Allow-Origin" "*" h)
    as ([] & h1 & E1 & P1 & V1 & C1 & W1).
  rewrite (bind_Val _ _ _ _ _ E1).
  destruct (buffers_send_header "Access-Control-Allow-Methods" "GET, POST, OPTIONS" h1)
    as ([] & h2 & E2 & P2 & V2 & C2 & W2).
  rewrite (bind_Val _ _ _ _ _ E2).
  destruct (buffers_send_header "Access-Control-Allow-Headers" "Content-Type" h2)
    as ([] & h3 & E3 & P3 & V3 & C3 & W3).
  rewrite (bind_Val _ _ _ _ _ E3).
  exists h3. split.
  - apply bind_Exc. unfold self_path.
    replace (path h3) with (@None string) by congruence. reflexivity.
  - repeat split; congruence.
Qed.

Lemma CustomHandler_end_headers_simple_returns h p :
  path h = Some p ->
  (request_version h =? "HTTP/0.9") = true ->
  CustomHandler_end_headers h = (Val tt, h).
Proof.
  intros Hp Hv. unfold CustomHandler_end_headers.
  do 3 (erewrite bind_Val; [|rewrite send_header_plain by reflexivity; rewrite Hv; reflexivity]).
  erewrite bind_Val; [|unfold self_path; rewrite Hp; reflexivity].
  unfold when. destruct (Py.endswith p ".js").
  - erewrite bind_Val; [|rewrite send_header_plain by reflexivity; rewrite Hv; reflexivity].
    unfold end_headers, when, bind, gets. rewrite Hv. reflexivity.
  - erewrite bind_Val; [|reflexivity].
    unfold end_headers, when, bind, gets. rewrite Hv. reflexivity.
Qed.

Lemma steady_CustomHandler_end_headers : steady CustomHandler_end_headers.
Proof.
  intro h. destruct (path h) as [p|] eqn:Hp.
  - destruct (request_version h =? "HTTP/0.9") eqn:Hv.
    + rewrite (CustomHandler_end_headers_simple_returns h p Hp Hv). cbn [fst snd].
      split; [apply steady_step_refl | intros _; now eexists].
    + rewrite (CustomHandler_end_headers_flushes h p Hp Hv). cbn [fst snd].
      split; [|intros _; now eexists].
      repeat (split; [reflexivity|]). eexists. split; [reflexivity|].
      constructor; [|constructor]. cbn. now apply String.eqb_neq.
  - destruct (CustomHandler_end_headers_without_path h Hp) as (h' & E & P & V & C & Wf).
    rewrite E. cbn [fst snd]. split; [|intro Hn; now elim Hn].
    repeat (split; [assumption|]). exists []. split; [now rewrite app_nil_r | constructor].
Qed.

(** The end of [send_error]: the page, unless the request is a HEAD. *)
Lemma steady_body_unless_head body :
  steady (bind (gets command)
            (fun c => when (negb (match c with Some c => c =? "HEAD" | None => false end)
                            && negb (body =? ""))
                        (write (Body body)))).
Proof.
  intro h. unfold bind, gets, when, write, modify.
  destruct (negb (match command h with Some c => c =? "HEAD" | None => false end)
            && negb (body =? "")) eqn:G; cbn [fst snd].
  - split; [|intros _; now eexists].
    repeat (split; [reflexivity|]). exists [Body body]. split; [reflexivity|].
    constructor; [|constructor]. cbn. intro Hc. rewrite Hc in G. discriminate G.
  - split; [apply steady_step_refl | intros _; now eexists].
Qed.

Create HintDb steady.

Ltac steady_step_tac :=
  lazymatch goal with
  | |- steady (bind (gets command) _) => apply steady_body_unless_head
  | |- steady (bind _ _) => apply steady_bind; [|intro]
  | |- steady (ret _) => apply steady_ret
  | |- steady (gets _) => apply steady_gets
  | |- steady (when _ _) => apply steady_when
  | |- steady self_path => apply steady_self_path
  | |- steady CustomHandler_end_headers => apply steady_CustomHandler_end_headers
  | |- steady (send_header _ _) => apply buffers_steady, buffers_send_header
  | |- steady (send_response _ _ _ _) => apply buffers_steady, buffers_send_response
  | |- steady (CustomHandler_log_message _) =>
      apply buffers_steady, buffers_CustomHandler_log_message
  | |- steady (modify _) => apply steady_modify; intro; repeat split
  | |- steady (if ?b then _ else _) => destruct b
  | |- steady (match ?x with _ => _ end) => destruct x
  | |- steady (let '(_, _) := ?x in _) => destruct x
  | |- _ => solve [auto with steady]
  end.

Ltac steady_auto := repeat steady_step_tac.

Section SteadyHandler.

Variable W : world.

Lemma steady_send_error code message explain :
  steady (send_error W CustomHandler_end_headers CustomHandler_log_message
            code message explain).
Proof.
  unfold send_error, log_error.
  destruct (match responses code with Some sl => sl | None => ("???", "???") end).
  steady_auto.
Qed.

Local Hint Resolve steady_send_error : steady.

Lemma steady_translate_path p : steady (translate_path W p).
Proof. unfold translate_path. steady_auto. Qed.

Local Hint Resolve steady_translate_path : steady.

Lemma steady_send_file path :
  steady (send_file W CustomHandler_end_headers CustomHandler_log_message path).
Proof. unfold send_file. steady_auto. Qed.

Lemma steady_list_directory path :
  steady (list_directory W CustomHandler_end_headers CustomHandler_log_message path).
Proof. unfold list_directory. steady_auto. Qed.

Local Hint Resolve steady_send_file steady_list_directory : steady.

Lemma steady_send_head :
  steady (send_head W CustomHandler_end_headers CustomHandler_log_message).
Proof. unfold send_head. steady_auto. Qed.

(** The method for [c], called for a request whose command is [c]. *)
Lemma steady_method c m h :
  self_do W CustomHandler_end_headers CustomHandler_log_message c = Some m ->
  command h = Some c ->
  steady_step h (snd (m h)) /\ (path h <> None -> exists a, fst (m h) = Val a).
Proof.
  unfold self_do. destruct (c =? "GET") eqn:Eg.
  - intros [= <-] Hc. apply String.eqb_eq in Eg. subst c.
    unfold do_GET, bind. destruct (steady_send_head h) as [S1 R1].
    destruct (send_head W _ _ h) as [[[data|]|e|] h1]; cbn [fst snd] in *.
    + unfold copyfile, when, write, modify. destruct (negb (data =? "")); cbn [fst snd].
      * split; [|intros _; now eexists].
        eapply steady_step_trans; [exact S1|].
        repeat (split; [reflexivity|]). exists [Body data]. split; [reflexivity|].
        constructor; [|constructor]. cbn. destruct S1 as (_ & _ & C1 & _).
        rewrite C1, Hc. discriminate.
      * split; [exact S1 | intros _; now eexists].
    + split; [exact S1 | intros _; now eexists].
    + split; [exact S1|]. intro Hp. destruct (R1 Hp) as [a Ha]. discriminate Ha.
    + split; [exact S1|]. intro Hp. destruct (R1 Hp) as [a Ha]. discriminate Ha.
  - destruct (c =? "HEAD"); [|discriminate].
    intros [= <-] Hc.
    assert (Hm : steady (do_HEAD W CustomHandler_end_headers CustomHandler_log_message)).
    { unfold do_HEAD. pose proof steady_send_head. steady_auto. }
    apply Hm.
Qed.

End SteadyHandler.


Section Answers.

Variable W : world.

Lemma send_error_without_path code message explain h :
  path h = None ->
  exists h',
    send_error W CustomHandler_end_headers CustomHandler_log_message code message explain h
      = (Exc (AttributeError "path"), h') /\
    wfile h' = wfile h.
Proof.
  intros Hp. unfold send_error, log_error.
  destruct (match responses code with Some sl => sl | None => ("???", "???") end)
    as [shortmsg longmsg].
  match goal with
  | |- context [bind (CustomHandler_log_message ?m) _ h] =>
      destruct (buffers_CustomHandler_log_message m h) as ([] & h1 & E1 & P1 & _ & _ & W1)
  end.
  rewrite (bind_Val _ _ _ _ _ E1).
  match goal with
  | |- context [bind (send_response W _ ?c ?m) _ h1] =>
      destruct (buffers_send_response W c m h1) as ([] & h2 & E2 & P2 & _ & _ & W2)
  end.
  rewrite (bind_Val _ _ _ _ _ E2).
  destruct (buffers_send_header "Connection" "close" h2) as ([] & h3 & E3 & P3 & _ & _ & W3).
  rewrite (bind_Val _ _ _ _ _ E3).
  match goal with
  | |- context [bind (when ?b ?m) _ h3] =>
      assert (Hm : buffers (when b m)) by (pose proof buffers_send_header; buffers_auto);
      destruct (Hm h3) as ([] & h4 & E4 & P4 & _ & _ & W4)
  end.
  rewrite (bind_Val _ _ _ _ _ E4).
  destruct (CustomHandler_end_headers_without_path h4) as (h5 & E5 & _ & _ & _ & W5);
    [congruence|].
  exists h5. split; [apply bind_Exc; exact E5 | congruence].
Qed.

(** An accepted request line is answered: the handler returns, and from the
    state in which the line left it, it has taken a steady step. *)
Lemma accepted_line_is_answered h line cmd p v hs more :
  rfile h = Line (RequestLine line cmd p v hs) :: more ->
  fst (handle_one_request W CustomHandler_end_headers CustomHandler_log_message h) = Val tt /\
  steady_step (with_request line cmd p v (set_rfile more h))
    (snd (handle_one_request W CustomHandler_end_headers CustomHandler_log_message h)).
Proof.
  intros Hr. unfold handle_one_request.
  erewrite bind_Val; [|unfold readline; rewrite Hr; reflexivity].
  cbv beta iota.
  set (h1 := with_request line cmd p v (set_rfile more h)).
  destruct hs as [message explain|fresh].
  - assert (E : parse_request W CustomHandler_end_headers CustomHandler_log_message
                  (RequestLine line cmd p v (HeadersTooLarge message explain))
                  (set_rfile more h)
                = bind (send_error W CustomHandler_end_headers CustomHandler_log_message
                          431 (Some message) (Some explain))
                       (fun _ => ret false) h1) by reflexivity.
    destruct (steady_send_error W 431 (Some message) (Some explain) h1) as [S1 R1].
    destruct R1 as [[] Ha]; [discriminate|].
    destruct (send_error W _ _ 431 _ _ h1) as [r h2] eqn:Es. cbn [fst snd] in *. subst r.
    rewrite (bind_Val _ _ _ _ _ Es) in E.
    rewrite (bind_Val _ _ _ _ _ E). cbn [fst snd]. split; [reflexivity | exact S1].
  - erewrite bind_Val by apply parse_request_accepts.
    cbv beta iota. erewrite bind_Val by reflexivity.
    change (parsed line cmd p v fresh (set_rfile more h)) with (set_headers (Headers fresh) h1).
    cbn [command set_headers].
    change (command h1) with (Some cmd).
    destruct (self_do W CustomHandler_end_headers CustomHandler_log_message cmd)
      as [method|] eqn:Em.
    + destruct (steady_method W cmd method (set_headers (Headers fresh) h1) Em eq_refl)
        as [S1 R1].
      destruct R1 as [[] Ha]; [discriminate|].
      split; [exact Ha | exact S1].
    + match goal with
      | |- context [send_error W _ _ 501 ?m ?e _] =>
          destruct (steady_send_error W 501 m e (set_headers (Headers fresh) h1)) as [S1 R1]
      end.
      destruct R1 as [[] Ha]; [discriminate|].
      split; [exact Ha | exact S1].
Qed.

End Answers.

(** An error that is to be sent before the request has a path: the handler
    raises, and nothing has gone to the client. *)
Lemma early_error_outcome W c :
  early_error c = true ->
  exists h', CustomHandler_init W c = (Exc (AttributeError "path"), h') /\ wfile h' = [].
Proof.
  rewrite handle_is_one_request. unfold early_error.
  destruct (requests c) as [|[|[line|line version code message|line cmd p v hs]] more] eqn:Hr;
    try discriminate; intros _; unfold handle_one_request;
    (erewrite bind_Val; [|unfold readline; cbn [rfile set_close_connection fresh_handler];
                          rewrite Hr; reflexivity]);
    cbv beta iota.
  - do 3 erewrite bind_Val by reflexivity.
    match goal with
    | |- context [send_error W _ _ 414 None None ?h] =>
        destruct (send_error_without_path W 414 None None h eq_refl) as (h' & E & Wf)
    end.
    exists h'. split; [exact E | exact Wf].
  - match goal with
    | |- context [bind (parse_request W _ _ _) _ ?h0] =>
        destruct (send_error_without_path W code (Some message) None
                    (set_request_version version
                       (set_requestline line
                          (set_close_connection true
                             (set_request_version default_request_version
                                (set_command None h0))))) eq_refl)
          as (h' & E & Wf);
        assert (Ep : parse_request W CustomHandler_end_headers CustomHandler_log_message
                       (Rejected line version code message) h0
                     = (Exc (AttributeError "path"), h'))
    end.
    { unfold parse_request.
      do 5 (erewrite bind_Val by reflexivity; cbv beta iota).
      erewrite bind_Exc; [reflexivity | exact E]. }
    exists h'. split; [apply bind_Exc; exact Ep | exact Wf].
Qed.

(** Every other connection: the handler returns. *)
Lemma no_early_error_outcome W c :
  early_error c = false -> fst (CustomHandler_init W c) = Val tt.
Proof.
  rewrite handle_is_one_request. unfold early_error.
  destruct (requests c) as [|[|[line|line version code message|line cmd p v hs]] more] eqn:Hr;
    try discriminate; intros _.
  - unfold handle_one_request.
    erewrite bind_Val; [|unfold readline; cbn [rfile set_close_connection fresh_handler];
                         rewrite Hr; reflexivity].
    reflexivity.
  - unfold handle_one_request.
    erewrite bind_Val; [|unfold readline; cbn [rfile set_close_connection fresh_handler];
                         rewrite Hr; reflexivity].
    reflexivity.
  - apply (accepted_line_is_answered W _ line cmd p v hs more).
    cbn [rfile set_close_connection fresh_handler]. exact Hr.
Qed.




(** X10. The answer to an accepted request line fits the request: under
    HTTP/0.9 no header block is sent (so no CORS header either, only the
    bare page or file), and a HEAD request is never sent a body. *)
Theorem response_fits_the_request (W : world) (who line cmd p v : string)
    (hs : header_section) (more : list request) :
  Forall (fun c => match c with
                   | HeaderBlock _ => v <> "HTTP/0.9"
                   | Body _ => cmd <> "HEAD"
                   end)
    (response W {| peer := who; requests := Line (RequestLine line cmd p v hs) :: more |}).
Proof.
  unfold response. rewrite handle_is_one_request.
  match goal with
  | |- context [handle_one_request W _ _ ?h0] =>
      destruct (accepted_line_is_answered W h0 line cmd p v hs more eq_refl)
        as [_ (_ & _ & _ & added & Wf & F)]
  end.
  rewrite Wf. cbn [app wfile with_request set_path set_command set_request_version
                   set_requestline set_close_connection set_rfile fresh_handler].
  eapply Forall_impl; [|exact F]. intros [lines|data]; cbn; [auto|].
  intros Hc ->. now apply Hc.
Qed.


(** ** One header block per answer *)

Lemma answers_after_buffers {A B} (m : H A) (k : A -> H B) :
  buffers m -> (forall a, answers_once (k a)) -> answers_once (bind m k).
Proof.
  intros Hm Hk h Hp Hv. destruct (Hm h) as (a & h1 & E & P1 & V1 & _ & W1).
  rewrite (bind_Val _ _ _ _ _ E).
  destruct (Hk a h1) as (lines & rest & Wf & F); [congruence | congruence |].
  exists lines, rest. split; [congruence | exact F].
Qed.

Lemma answers_then_bodies {A B} (m : H A) (k : A -> H B) :
  answers_once m -> steady m -> (forall a, bodies_only (k a)) -> answers_once (bind m k).
Proof.
  intros Hm Hs Hk h Hp Hv. destruct (Hm h Hp Hv) as (lines & rest & Wf & F).
  destruct (Hs h) as [_ R]. destruct (R Hp) as [a Ha].
  unfold bind. destruct (m h) as [r h1]. cbn [fst snd] in *. subst r.
  destruct (Hk a h1) as (rest' & Wf' & F').
  exists lines, (rest ++ rest')%list. split.
  - rewrite Wf', Wf. rewrite <- app_assoc. reflexivity.
  - apply Forall_app. now split.
Qed.

Lemma answers_self_path {B} (k : string -> H B) :
  (forall p, answers_once (k p)) -> answers_once (bind self_path k).
Proof.
  intros Hk h Hp Hv. unfold bind, self_path.
  destruct (path h) as [p|] eqn:E; [|now elim Hp].
  apply Hk; [congruence | exact Hv].
Qed.

Lemma answers_CustomHandler_end_headers : answers_once CustomHandler_end_headers.
Proof.
  intros h Hp Hv. destruct (path h) as [p|] eqn:E; [|now elim Hp].
  apply String.eqb_neq in Hv.
  rewrite (CustomHandler_end_headers_flushes h p E Hv). cbn [snd].
  eexists _, []. split; [reflexivity | constructor].
Qed.

Lemma bodies_only_ret {A} (a : A) : bodies_only (@ret handler A a).
Proof. intro h. exists []. cbn. split; [now rewrite app_nil_r | constructor]. Qed.

Lemma bodies_only_write_body_when (b : bool) data : bodies_only (when b (write (Body data))).
Proof.
  intro h. destruct b; cbn.
  - exists [Body data]. split; [reflexivity | repeat constructor].
  - exists []. split; [now rewrite app_nil_r | constructor].
Qed.

Lemma bodies_only_body_unless_head body :
  bodies_only (bind (gets command)
                 (fun c => when (negb (match c with Some c => c =? "HEAD" | None => false end)
                                 && negb (body =? ""))
                             (write (Body body)))).
Proof. intro h. unfold bind, gets. apply bodies_only_write_body_when. Qed.

Ltac bodies_tac :=
  first [ apply bodies_only_ret
        | apply bodies_only_body_unless_head
        | apply bodies_only_write_body_when ].

Create HintDb answers.

Ltac answers_step :=
  lazymatch goal with
  | |- answers_once (bind CustomHandler_end_headers _) =>
      apply answers_then_bodies;
      [apply answers_CustomHandler_end_headers | apply steady_CustomHandler_end_headers
      | intro; bodies_tac]
  | |- answers_once (bind (send_error _ _ _ _ _ _) _) =>
      apply answers_then_bodies;
      [solve [auto with answers] | apply steady_send_error | intro; bodies_tac]
  | |- answers_once (bind self_path _) => apply answers_self_path; intro
  | |- answers_once (bind _ _) =>
      apply answers_after_buffers;
      [first [ apply buffers_gets | apply buffers_send_header | apply buffers_send_response
             | apply buffers_CustomHandler_log_message
             | apply buffers_when; apply buffers_bind; [|intro]; apply buffers_send_header
             | solve [auto with buffers] ]
      | intro]
  | |- answers_once (if ?b then _ else _) => destruct b
  | |- answers_once (match ?x with _ => _ end) => destruct x
  | |- answers_once (let '(_, _) := ?x in _) => destruct x
  | |- _ => solve [auto with answers]
  end.

Ltac answers_auto := repeat answers_step.

Section AnswersOnce.

Variable W : world.

Lemma answers_send_error code message explain :
  answers_once (send_error W CustomHandler_end_headers CustomHandler_log_message
                  code message explain).
Proof.
  unfold send_error, log_error.
  destruct (match responses code with Some sl => sl | None => ("???", "???") end).
  answers_auto.
Qed.

Local Hint Resolve answers_send_error : answers.

Lemma buffers_translate_path p : buffers (translate_path W p).
Proof. unfold translate_path. buffers_auto. Qed.

Local Hint Resolve buffers_translate_path : buffers.

Lemma answers_send_file path :
  answers_once (send_file W CustomHandler_end_headers CustomHandler_log_message path).
Proof. unfold send_file. answers_auto. Qed.

Lemma answers_list_directory path :
  answers_once (list_directory W CustomHandler_end_headers CustomHandler_log_message path).
Proof. unfold list_directory. answers_auto. Qed.

Local Hint Resolve answers_send_file answers_list_directory : answers.

Lemma answers_send_head :
  answers_once (send_head W CustomHandler_end_headers CustomHandler_log_message).
Proof. unfold send_head. answers_auto. Qed.

Lemma answers_method c m :
  self_do W CustomHandler_end_headers CustomHandler_log_message c = Some m ->
  answers_once m.
Proof.
  unfold self_do. destruct (c =? "GET").
  - intros [= <-]. unfold do_GET.
    apply answers_then_bodies; [apply answers_send_head | apply steady_send_head|].
    intros [data|]; [apply bodies_only_write_body_when | apply bodies_only_ret].
  - destruct (c =? "HEAD"); [|discriminate]. intros [= <-]. unfold do_HEAD.
    apply answers_then_bodies; [apply answers_send_head | apply steady_send_head|].
    intros _. apply bodies_only_ret.
Qed.

End AnswersOnce.

Lemma accepted_line_answers_once W h line cmd p v hs more :
  rfile h = Line (RequestLine line cmd p v hs) :: more ->
  v <> "HTTP/0.9" ->
  exists lines rest,
    wfile (snd (handle_one_request W CustomHandler_end_headers CustomHandler_log_message h))
      = (wfile h ++ HeaderBlock lines :: rest)%list /\
    Forall is_body rest.
Proof.
  intros Hr Hv. unfold handle_one_request.
  erewrite bind_Val; [|unfold readline; rewrite Hr; reflexivity].
  cbv beta iota.
  set (h1 := with_request line cmd p v (set_rfile more h)).
  assert (Hp1 : path h1 <> None) by discriminate.
  destruct hs as [message explain|fresh].
  - assert (E : parse_request W CustomHandler_end_headers CustomHandler_log_message
                  (RequestLine line cmd p v (HeadersTooLarge message explain))
                  (set_rfile more h)
                = bind (send_error W CustomHandler_end_headers CustomHandler_log_message
                          431 (Some message) (Some explain))
                       (fun _ => ret false) h1) by reflexivity.
    destruct (answers_send_error W 431 (Some message) (Some explain) h1 Hp1 Hv)
      as (lines & rest & Wf & F).
    destruct (steady_send_error W 431 (Some message) (Some explain) h1) as [_ R1].
    destruct (R1 Hp1) as [[] Ha].
    destruct (send_error W _ _ 431 _ _ h1) as [r h2] eqn:Es. cbn [fst snd] in *. subst r.
    rewrite (bind_Val _ _ _ _ _ Es) in E.
    rewrite (bind_Val _ _ _ _ _ E). cbn [fst snd].
    exists lines, rest. split; [exact Wf | exact F].
  - erewrite bind_Val by apply parse_request_accepts.
    cbv beta iota. erewrite bind_Val by reflexivity.
    change (parsed line cmd p v fresh (set_rfile more h)) with (set_headers (Headers fresh) h1).
    cbn [command set_headers].
    change (command h1) with (Some cmd).
    destruct (self_do W CustomHandler_end_headers CustomHandler_log_message cmd)
      as [method|] eqn:Em.
    + exact (answers_method W cmd method Em (set_headers (Headers fresh) h1) Hp1 Hv).
    + match goal with
      | |- context [send_error W _ _ 501 ?m ?e _] =>
          exact (answers_send_error W 501 m e (set_headers (Headers fresh) h1) Hp1 Hv)
      end.
Qed.




(** ** What is logged is what is sent *)

Lemma mute_step_refl h : mute_step h h.
Proof. repeat split. Qed.

Lemma mute_step_trans h1 h2 h3 : mute_step h1 h2 -> mute_step h2 h3 -> mute_step h1 h3.
Proof. intros (A1 & B1 & C1) (A2 & B2 & C2). repeat split; congruence. Qed.

Lemma mute_ret {A} (a : A) : mute (ret a).
Proof. intro h. apply mute_step_refl. Qed.

Lemma mute_bind {A B} (m : H A) (k : A -> H B) :
  mute m -> (forall a, mute (k a)) -> mute (bind m k).
Proof.
  intros Hm Hk h. unfold bind. specialize (Hm h).
  destruct (m h) as [[a|e|] h1]; cbn [snd] in *; try assumption.
  eapply mute_step_trans; [exact Hm | apply Hk].
Qed.

Lemma mute_gets {A} (f : handler -> A) : mute (gets f).
Proof. intro h. apply mute_step_refl. Qed.

Lemma mute_raise {A} (e : exn) : mute (@raise handler A e).
Proof. intro h. apply mute_step_refl. Qed.

Lemma mute_modify (f : handler -> handler) :
  (forall h, mute_step h (f h)) -> mute (modify f).
Proof. intros Hf h. apply Hf. Qed.

Lemma mute_when (b : bool) (m : H unit) : mute m -> mute (when b m).
Proof. intro Hm. destruct b; [exact Hm | apply mute_ret]. Qed.

Lemma mute_self_path : mute self_path.
Proof. intro h. unfold self_path. destruct (path h); apply mute_step_refl. Qed.

Create HintDb mute.

Ltac mute_step_tac :=
  lazymatch goal with
  | |- mute (bind _ _) => apply mute_bind; [|intro]
  | |- mute (ret _) => apply mute_ret
  | |- mute (gets _) => apply mute_gets
  | |- mute (when _ _) => apply mute_when
  | |- mute (raise _) => apply mute_raise
  | |- mute self_path => apply mute_self_path
  | |- mute (write _) => unfold write
  | |- mute (modify _) => apply mute_modify; intro; repeat split
  | |- mute (if ?b then _ else _) => destruct b
  | |- mute (match ?x with _ => _ end) => destruct x
  | |- _ => solve [auto with mute]
  end.

Ltac mute_auto := repeat mute_step_tac.

Lemma mute_buffer_append line : mute (buffer_append line).
Proof. unfold buffer_append. mute_auto. Qed.

#[local] Hint Resolve mute_buffer_append : mute.

Lemma mute_send_response_only code message : mute (send_response_only code message).
Proof. unfold send_response_only. mute_auto. Qed.

Lemma mute_send_header keyword value : mute (send_header keyword value).
Proof. unfold send_header. mute_auto. Qed.

Lemma mute_end_headers : mute end_headers.
Proof. unfold end_headers, flush_headers. mute_auto. Qed.

#[local] Hint Resolve mute_send_response_only mute_send_header mute_end_headers : mute.

Lemma mute_CustomHandler_end_headers : mute CustomHandler_end_headers.
Proof. unfold CustomHandler_end_headers. mute_auto. Qed.

#[local] Hint Resolve mute_CustomHandler_end_headers : mute.

Lemma mute_body_unless_head body :
  mute (bind (gets command)
          (fun c => when (negb (match c with Some c => c =? "HEAD" | None => false end)
                          && negb (body =? ""))
                      (write (Body body)))).
Proof. mute_auto. Qed.

(** [send_header]: it returns and prints nothing; under a version with
    headers the line goes to the end of the buffer. *)
Lemma send_header_state keyword value h :
  exists h',
    send_header keyword value h = (Val tt, h') /\
    mute_step h h' /\
    path h' = path h /\ request_version h' = request_version h /\ wfile h' = wfile h /\
    (request_version h <> "HTTP/0.9" ->
     _headers_buffer h' =
       Some ((match _headers_buffer h with Some b => b | None => [] end)
             ++ [header_line keyword value])%list).
Proof.
  unfold send_header, when, bind, gets, buffer_append, modify, ret.
  destruct (request_version h =? "HTTP/0.9") eqn:Hv; cbn [negb];
    (destruct (Py.lower keyword =? "connection");
     [destruct (Py.lower value =? "close");
      [|destruct (Py.lower value =? "keep-alive")]|]);
    eexists; (split; [reflexivity|]); repeat split;
    try (intros Hn; try reflexivity; apply String.eqb_eq in Hv; contradiction).
Qed.

Lemma finishes_after_header {A} keyword value (k : H A) :
  finishes k -> finishes (bind (send_header keyword value) (fun _ => k)).
Proof.
  intros [Mk Fk]. split.
  - apply mute_bind; [apply mute_send_header | intros _; exact Mk].
  - intros h x l Hv Hp Hb.
    destruct (send_header_state keyword value h) as (h1 & E & _ & P1 & V1 & W1 & B1).
    specialize (B1 Hv).
    rewrite (bind_Val _ _ _ _ _ E). rewrite Hb in B1. cbn [app] in B1.
    destruct (Fk h1 x _ ltac:(congruence) ltac:(congruence) B1) as (lines & rest & Wf).
    exists lines, rest. congruence.
Qed.

Lemma finishes_at_end_headers {A} (tail : H A) :
  trails tail -> finishes (bind CustomHandler_end_headers (fun _ => tail)).
Proof.
  intros [Mt Wt]. split.
  - apply mute_bind; [apply mute_CustomHandler_end_headers | intros _; exact Mt].
  - intros h x l Hv Hp Hb.
    destruct (path h) as [p|] eqn:Ep; [|congruence].
    apply String.eqb_neq in Hv.
    rewrite (bind_Val _ _ _ _ _ (CustomHandler_end_headers_flushes h p Ep Hv)).
    cbv beta. rewrite Hb.
    match goal with |- context [tail ?h1] => destruct (Wt h1) as (rest & E) end.
    rewrite E. handler_fields. rewrite <- app_assoc. cbn [app]. eauto.
Qed.

Lemma finishes_ext {A} (m m' : H A) :
  (forall h, m h = m' h) -> finishes m -> finishes m'.
Proof.
  intros E [Mm Fm]. split.
  - intro h. rewrite <- E. apply Mm.
  - intros h x l Hv Hp Hb. rewrite <- E. exact (Fm h x l Hv Hp Hb).
Qed.

Lemma bind_assoc {S A B C} (m : M S A) (f : A -> M S B) (g : B -> M S C) s :
  bind (bind m f) g s = bind m (fun a => bind (f a) g) s.
Proof. unfold bind. destruct (m s) as [[a|e|] s1]; reflexivity. Qed.

Lemma finishes_after_headers_when {A} (b : bool) k1 v1 k2 v2 (R : H A) :
  finishes R ->
  finishes (bind (when b (bind (send_header k1 v1) (fun _ => send_header k2 v2)))
              (fun _ => R)).
Proof.
  intros HR. destruct b; unfold when.
  - apply (finishes_ext
             (bind (send_header k1 v1) (fun _ => bind (send_header k2 v2) (fun _ => R)))).
    + intro h. symmetry. apply bind_assoc.
    + do 2 apply finishes_after_header. exact HR.
  - apply (finishes_ext R); [intro; reflexivity | exact HR].
Qed.

Lemma trails_ret {A} (a : A) : trails (@ret handler A a).
Proof. split; [apply mute_ret | intro h; exists []; cbn; now rewrite app_nil_r]. Qed.

Lemma trails_write_body_when (b : bool) data : trails (when b (write (Body data))).
Proof.
  split; [mute_auto|]. intro h.
  destruct (bodies_only_write_body_when b data h) as (rest & E & _). eauto.
Qed.

Lemma trails_body_unless_head body :
  trails (bind (gets command)
            (fun c => when (negb (match c with Some c => c =? "HEAD" | None => false end)
                            && negb (body =? ""))
                        (write (Body body)))).
Proof.
  split; [apply mute_body_unless_head|]. intro h.
  destruct (bodies_only_body_unless_head body h) as (rest & E & _). eauto.
Qed.

(** [send_response]: it returns, having logged the request line with the
    status; under a version with headers the status line is the first of
    the buffer, if that was empty. *)
Lemma send_response_state W code message h :
  exists h',
    send_response W CustomHandler_log_message code message h = (Val tt, h') /\
    printed h' = (printed h ++ [request_log (client_address h) (requestline h) code])%list /\
    client_address h' = client_address h /\ requestline h' = requestline h /\
    path h' = path h /\ request_version h' = request_version h /\ wfile h' = wfile h /\
    (request_version h <> "HTTP/0.9" -> buffer_empty h ->
     exists msg l, _headers_buffer h' = Some (status_line code msg :: l)).
Proof.
  unfold send_response, log_request.
  erewrite bind_Val; [|erewrite bind_Val by reflexivity; apply log_message_prints].
  match goal with |- context [logged ?m h] => set (h1 := logged m h) end.
  assert (S2 : exists h2,
             send_response_only code message h1 = (Val tt, h2) /\
             mute_step h1 h2 /\
             path h2 = path h /\ request_version h2 = request_version h /\
             wfile h2 = wfile h /\
             (request_version h <> "HTTP/0.9" -> buffer_empty h ->
              exists msg, _headers_buffer h2 = Some [status_line code msg])).
  { unfold send_response_only, when, bind, gets, buffer_append, modify, ret.
    change (request_version h1) with (request_version h).
    destruct (request_version h =? "HTTP/0.9") eqn:Hv; cbn [negb];
      eexists; (split; [reflexivity|]); repeat split.
    - intros Hn. apply String.eqb_eq in Hv. contradiction.
    - intros _ Hb. eexists. subst h1. handler_fields. unfold status_line.
      destruct Hb as [-> | ->]; reflexivity. }
  destruct S2 as (h2 & E2 & (P2 & C2 & R2) & Pa2 & V2 & W2 & B2).
  rewrite (bind_Val _ _ _ _ _ E2).
  destruct (send_header_state "Server" (version_string W) h2)
    as (h3 & E3 & (P3 & C3 & R3) & Pa3 & V3 & W3 & B3).
  rewrite (bind_Val _ _ _ _ _ E3).
  destruct (send_header_state "Date" (date_time_string W) h3)
    as (h4 & E4 & (P4 & C4 & R4) & Pa4 & V4 & W4 & B4).
  exists h4. split; [exact E4|].
  split; [rewrite P4, P3, P2; reflexivity|].
  split; [rewrite C4, C3, C2; reflexivity|].
  split; [rewrite R4, R3, R2; reflexivity|].
  split; [congruence|]. split; [congruence|]. split; [congruence|].
  intros Hv Hb. destruct (B2 Hv Hb) as (msg & B).
  rewrite B4, B3, B by congruence. cbn [app]. eauto.
Qed.

(** [send_error], whatever the state it is called in: the two log lines;
    and the header block, when it is called for a request with a path. *)
Lemma send_error_logs W code message explain h :
  let h' := snd (send_error W CustomHandler_end_headers CustomHandler_log_message
                   code message explain h) in
  let shown :=
    match message with
    | Some m => m
    | None => fst (match responses code with Some sl => sl | None => ("???", "???") end)
    end in
  printed h' = (printed h ++ [error_log (client_address h) code shown;
                              request_log (client_address h) (requestline h) code])%list /\
  (path h <> None -> request_version h <> "HTTP/0.9" -> buffer_empty h ->
   exists msg lines rest,
     wfile h' = (wfile h ++ HeaderBlock (status_line code msg :: lines) :: rest)%list).
Proof.
  unfold send_error, log_error.
  destruct (match responses code with Some sl => sl | None => ("???", "???") end)
    as [shortmsg longmsg].
  cbv zeta. cbn [fst].
  generalize (match message with Some m => m | None => shortmsg end). intro shown.
  erewrite bind_Val by apply log_message_prints.
  match goal with |- context [logged ?m h] => set (h1 := logged m h) end.
  destruct (send_response_state W code (Some shown) h1)
    as (h2 & E2 & P2 & C2 & R2 & Pa2 & V2 & W2 & B2).
  change (path h1) with (path h) in Pa2.
  change (request_version h1) with (request_version h) in V2, B2.
  change (wfile h1) with (wfile h) in W2.
  change (buffer_empty h1) with (buffer_empty h) in B2.
  rewrite (bind_Val _ _ _ _ _ E2). cbv beta.
  match goal with
  | |- context [snd (?R h2)] => assert (F : finishes R)
  end.
  { apply finishes_after_header. apply finishes_after_headers_when.
    apply finishes_at_end_headers. apply trails_body_unless_head. }
  destruct F as [MF FF]. split.
  - rewrite (proj1 (MF h2)), P2. subst h1. handler_fields.
    rewrite <- app_assoc. reflexivity.
  - intros Hp Hv Hb. destruct (B2 Hv Hb) as (msg & l & B).
    destruct (FF h2 _ l ltac:(congruence) ltac:(congruence) B) as (lines & rest & Wf).
    exists msg, lines, rest. rewrite Wf, W2. reflexivity.
Qed.

Lemma reports_send_error W code message explain :
  reports (send_error W CustomHandler_end_headers CustomHandler_log_message
             code message explain).
Proof.
  intros h Hp Hb. exists code.
  destruct (send_error_logs W code message explain h) as [L S].
  split; [right; eexists; exact L | intro Hv; apply S; assumption].
Qed.

Lemma reports_then_trails {A B} (m : H A) (k : A -> H B) :
  reports m -> (forall a, trails (k a)) -> reports (bind m k).
Proof.
  intros Hm Hk h Hp Hb. destruct (Hm h Hp Hb) as (code & Pr & Se). exists code.
  unfold bind. destruct (m h) as [[a|e|] h1]; cbn [snd] in *;
    [|exact (conj Pr Se) ..].
  destruct (Hk a) as [Mk Wk]. destruct (Mk h1) as (P1 & _ & _).
  destruct (Wk h1) as (rest & W1). split.
  - rewrite P1. exact Pr.
  - intro Hv. destruct (Se Hv) as (msg & lines & rest0 & E).
    exists msg, lines, (rest0 ++ rest)%list. rewrite W1, E, <- app_assoc. reflexivity.
Qed.

Lemma reports_respond W code message {A} (R : H A) :
  finishes R ->
  reports (bind (send_response W CustomHandler_log_message code message) (fun _ => R)).
Proof.
  intros [MR FR] h Hp Hb. exists code.
  destruct (send_response_state W code message h)
    as (h2 & E2 & P2 & C2 & R2 & Pa2 & V2 & W2 & B2).
  rewrite (bind_Val _ _ _ _ _ E2). split.
  - left. rewrite (proj1 (MR h2)). exact P2.
  - intro Hv. destruct (B2 Hv Hb) as (msg & l & B).
    destruct (FR h2 _ l ltac:(congruence) ltac:(congruence) B) as (lines & rest & Wf).
    exists msg, lines, rest. rewrite Wf, W2. reflexivity.
Qed.

Lemma reports_after_reads {A B} (m : H A) (k : A -> H B) :
  reads m -> (forall a, reports (k a)) -> reports (bind m k).
Proof.
  intros Hm Hk h Hp Hb. destruct (Hm h Hp) as (a & E).
  rewrite (bind_Val _ _ _ _ _ E). now apply Hk.
Qed.

Lemma reads_gets {A} (f : handler -> A) : reads (gets f).
Proof. intros h _. now eexists. Qed.

Lemma reads_self_path : reads self_path.
Proof.
  intros h Hp. unfold self_path. destruct (path h); [now eexists | now elim Hp].
Qed.

Lemma reads_translate_path W p : reads (translate_path W p).
Proof. intros h _. eexists. apply translate_path_eq. Qed.

Create HintDb reports.

Ltac reports_step :=
  lazymatch goal with
  | |- reports (bind (send_error _ _ _ _ _ _) _) =>
      apply reports_then_trails; [apply reports_send_error | intro; apply trails_ret]
  | |- reports (bind (send_response _ _ _ _) _) =>
      apply reports_respond; repeat apply finishes_after_header;
      apply finishes_at_end_headers; apply trails_ret
  | |- reports (bind _ _) =>
      apply reports_after_reads;
      [first [apply reads_gets | apply reads_self_path | apply reads_translate_path]
      | intro]
  | |- reports (if ?b then _ else _) => destruct b
  | |- reports (match ?x with _ => _ end) => destruct x
  | |- _ => solve [auto with reports]
  end.

Ltac reports_auto := repeat reports_step.

Section Reports.

Variable W : world.

Lemma reports_send_file path :
  reports (send_file W CustomHandler_end_headers CustomHandler_log_message path).
Proof. unfold send_file. reports_auto. Qed.

Lemma reports_list_directory path :
  reports (list_directory W CustomHandler_end_headers CustomHandler_log_message path).
Proof. unfold list_directory. reports_auto. Qed.

Local Hint Resolve reports_send_file reports_list_directory : reports.

Lemma reports_send_head :
  reports (send_head W CustomHandler_end_headers CustomHandler_log_message).
Proof. unfold send_head. reports_auto. Qed.

Lemma reports_method c m :
  self_do W CustomHandler_end_headers CustomHandler_log_message c = Some m ->
  reports m.
Proof.
  unfold self_do. destruct (c =? "GET").
  - intros [= <-]. unfold do_GET.
    apply reports_then_trails; [apply reports_send_head|].
    intros [data|]; [apply trails_write_body_when | apply trails_ret].
  - destruct (c =? "HEAD"); [|discriminate]. intros [= <-]. unfold do_HEAD.
    apply reports_then_trails; [apply reports_send_head|].
    intros _. apply trails_ret.
Qed.

End Reports.

Lemma accepted_line_reports W h line cmd p v hs more :
  rfile h = Line (RequestLine line cmd p v hs) :: more ->
  buffer_empty h ->
  exists code,
    reported code (with_request line cmd p v (set_rfile more h))
      (snd (handle_one_request W CustomHandler_end_headers CustomHandler_log_message h)).
Proof.
  intros Hr Hb. unfold handle_one_request.
  erewrite bind_Val; [|unfold readline; rewrite Hr; reflexivity].
  cbv beta iota.
  set (h1 := with_request line cmd p v (set_rfile more h)).
  assert (Hp1 : path h1 <> None) by discriminate.
  assert (Hb1 : buffer_empty h1) by exact Hb.
  destruct hs as [message explain|fresh].
  - assert (E : parse_request W CustomHandler_end_headers CustomHandler_log_message
                  (RequestLine line cmd p v (HeadersTooLarge message explain))
                  (set_rfile more h)
                = bind (send_error W CustomHandler_end_headers CustomHandler_log_message
                          431 (Some message) (Some explain))
                       (fun _ => ret false) h1) by reflexivity.
    destruct (reports_send_error W 431 (Some message) (Some explain) h1 Hp1 Hb1)
      as (code & Rep).
    destruct (steady_send_error W 431 (Some message) (Some explain) h1) as [_ R1].
    destruct (R1 Hp1) as [[] Ha].
    destruct (send_error W _ _ 431 _ _ h1) as [r h2] eqn:Es. cbn [fst snd] in *. subst r.
    rewrite (bind_Val _ _ _ _ _ Es) in E.
    rewrite (bind_Val _ _ _ _ _ E). cbn [fst snd].
    exists code. exact Rep.
  - erewrite bind_Val by apply parse_request_accepts.
    cbv beta iota. erewrite bind_Val by reflexivity.
    change (parsed line cmd p v fresh (set_rfile more h)) with (set_headers (Headers fresh) h1).
    cbn [command set_headers].
    change (command h1) with (Some cmd).
    destruct (self_do W CustomHandler_end_headers CustomHandler_log_message cmd)
      as [method|] eqn:Em.
    + exact (reports_method W cmd method Em (set_headers (Headers fresh) h1) Hp1 Hb1).
    + match goal with
      | |- context [send_error W _ _ 501 ?m ?e _] =>
          exact (reports_send_error W 501 m e (set_headers (Headers fresh) h1) Hp1 Hb1)
      end.
Qed.

Lemma prefix_app (a b : string) : prefix a (a ++ b) = true.
Proof.
  induction a as [|x a IH]; cbn; [now destruct b|].
  destruct (ascii_dec x x); [exact IH | congruence].
Qed.

Lemma startswith_status_line code message :
  Py.startswith (status_line code message) (protocol_version ++ " " ++ Py.str code ++ " ")
  = true.
Proof.
  unfold Py.startswith, status_line.
  generalize protocol_version (Py.str code). intros a b.
  rewrite <- (append_assoc b " " (message ++ Py.CRLF)).
  rewrite <- (append_assoc " " (b ++ " ") (message ++ Py.CRLF)).
  rewrite <- (append_assoc a (" " ++ b ++ " ") (message ++ Py.CRLF)).
  apply prefix_app.
Qed.



(** X13. An error that is to be sent before the request has a path is
    logged like one that is sent: for a request line that is too long or
    that [parse_request] rejects, [log_message] prints the line of
    [log_error] and the line of [log_request] with the status code, although
    the handler then raises and nothing goes to the client. *)
Theorem early_error_is_logged_as_sent (W : world) (who : string) (more : list request) :
  log_of W {| peer := who; requests := LineTooLong :: more |}
    = [error_log who 414 "Request-URI Too Long"; request_log who "" 414] /\
  forall line version code message,
    log_of W {| peer := who; requests := Line (Rejected line version code message) :: more |}
      = [error_log who code message; request_log who line code].
Proof.
  split; [|intros line version code message];
    unfold log_of; rewrite handle_is_one_request; unfold handle_one_request;
    (erewrite bind_Val by reflexivity); cbv beta iota.
  - do 3 erewrite bind_Val by reflexivity.
    match goal with
    | |- context [send_error W _ _ 414 None None ?h] =>
        exact (proj1 (send_error_logs W 414 None None h))
    end.
  - match goal with
    | |- context [bind (parse_request W _ _ _) _ ?h0] =>
        pose (h1 := set_request_version version
                      (set_requestline line
                         (set_close_connection true
                            (set_request_version default_request_version
                               (set_command None h0)))));
        destruct (send_error_without_path W code (Some message) None h1 eq_refl)
          as (h' & E & _);
        assert (Ep : parse_request W CustomHandler_end_headers CustomHandler_log_message
                       (Rejected line version code message) h0
                     = (Exc (AttributeError "path"), h'))
    end.
    { unfold parse_request.
      do 5 (erewrite bind_Val by reflexivity; cbv beta iota).
      erewrite bind_Exc; [reflexivity | exact E]. }
    rewrite (bind_Exc _ _ _ _ _ Ep). cbn [snd].
    pose proof (proj1 (send_error_logs W code (Some message) None h1)) as L.
    rewrite E in L. exact L.
Qed.

(** ** Files outside the directory of the script *)

Lemma bind_cong {S A B} (m m' : M S A) (k k' : A -> M S B) s :
  m s = m' s ->
  (forall a s', m' s = (Val a, s') -> k a s' = k' a s') ->
  bind m k s = bind m' k' s.
Proof.
  intros Em Ek. unfold bind. rewrite Em.
  destruct (m' s) as [[a|e|] s'] eqn:E; [apply Ek | ..]; reflexivity.
Qed.

Section Below.

Variable W : world.
Variable f : string -> node.
Hypothesis same : same_below (root W) f (fs W).

Lemma send_file_below rest h :
  send_file (with_fs f W) CustomHandler_end_headers CustomHandler_log_message
    (root W ++ rest) h
  = send_file W CustomHandler_end_headers CustomHandler_log_message (root W ++ rest) h.
Proof.
  unfold send_file. change (fs (with_fs f W)) with f. rewrite (same rest). reflexivity.
Qed.

Lemma list_directory_below rest h :
  list_directory (with_fs f W) CustomHandler_end_headers CustomHandler_log_message
    (root W ++ rest) h
  = list_directory W CustomHandler_end_headers CustomHandler_log_message (root W ++ rest) h.
Proof.
  unfold list_directory. change (fs (with_fs f W)) with f. rewrite (same rest). reflexivity.
Qed.

Lemma send_head_below h :
  directory h = root W ->
  send_head (with_fs f W) CustomHandler_end_headers CustomHandler_log_message h
  = send_head W CustomHandler_end_headers CustomHandler_log_message h.
Proof.
  intros Hd. unfold send_head.
  destruct (path h) as [p|] eqn:Hp.
  - assert (Es : self_path h = (Val p, h)) by (unfold self_path; now rewrite Hp).
    rewrite !(bind_Val _ _ _ _ _ Es).
    rewrite (bind_Val _ _ _ _ _ (translate_path_eq (with_fs f W) p h)).
    rewrite (bind_Val _ _ _ _ _ (translate_path_eq W p h)).
    change (file_path (with_fs f W) (directory h) p) with (file_path W (directory h) p).
    rewrite Hd. destruct (file_path_below W (root W) p) as [rest E]. rewrite E.
    change (fs (with_fs f W)) with f. rewrite (same rest).
    destruct (isdir (fs W (root W ++ rest))); [|apply send_file_below].
    change (urlsplit_path (with_fs f W) p) with (urlsplit_path W p).
    destruct (negb (Py.endswith (urlsplit_path W p) "/")); [reflexivity|].
    cbn [map find].
    destruct (os_path_join_below (root W) rest "index.html" eq_refl) as [y1 E1].
    destruct (os_path_join_below (root W) rest "index.htm" eq_refl) as [y2 E2].
    rewrite E1, E2, (same y1), (same y2).
    destruct (isfile (fs W (root W ++ y1))); [apply send_file_below|].
    destruct (isfile (fs W (root W ++ y2))); [apply send_file_below|].
    apply list_directory_below.
  - unfold bind, self_path. rewrite Hp. reflexivity.
Qed.

Lemma handle_one_request_below h :
  directory h = root W ->
  handle_one_request (with_fs f W) CustomHandler_end_headers CustomHandler_log_message h
  = handle_one_request W CustomHandler_end_headers CustomHandler_log_message h.
Proof.
  intros Hd. unfold handle_one_request.
  apply bind_cong; [reflexivity|]. intros [[|r]|] h1 Er; try reflexivity.
  assert (Hd1 : directory h1 = root W).
  { unfold readline in Er. destruct (rfile h); [discriminate|].
    injection Er as _ <-. exact Hd. }
  apply bind_cong; [reflexivity|]. intros [|] h2 Ep; [|reflexivity].
  assert (Hd2 : directory h2 = root W).
  { destruct (respects_parse_request W _ _ respects_CustomHandler_end_headers
                respects_CustomHandler_log_message r h1) as [[D _] _].
    rewrite Ep in D. cbn [snd] in D. congruence. }
  apply bind_cong; [reflexivity|]. intros c h3 [= <- <-].
  unfold self_do.
  destruct ((match command h2 with Some c => c | None => "" end) =? "GET").
  - unfold do_GET. apply bind_cong; [apply send_head_below; exact Hd2 | reflexivity].
  - destruct ((match command h2 with Some c => c | None => "" end) =? "HEAD");
      [|reflexivity].
    unfold do_HEAD. apply bind_cong; [apply send_head_below; exact Hd2 | reflexivity].
Qed.

End Below.


